(** * Strategy-and-portfolio engine of the trading simulator

    A shallow embedding of [src/trading_simulator/app.py]: the price history,
    the moving-average crossover detector, the trade executor, the polling
    job and the main loop, together with the four SQLite tables they work
    on.

    Modelling conventions.
    - The arithmetic of Python's [float] is a parameter of the model, the
      class [Arith] over a carrier [num].  Its instance [binary64], over
      Rocq's primitive floats, is the arithmetic the program runs: IEEE 754
      doubles rounded to nearest even, with infinities, NaN and signed
      zeros.  Its instance [exact] computes in the rationals without
      rounding.  A property of the control flow and of the tables is proved
      for every arithmetic, so for [binary64]; a property that rests on the
      laws of an ordered field is proved for [exact].
    - [sum] adds from left to right and rounds every addition.  (From
      version 3.12 on CPython carries a compensation term through a sum of
      floats, which can change the last bit of a sum; the model follows the
      plain sum.)
    - A Python [int] is a [Z]; window lengths may be any integer and slices
      follow Python's rules for negative indices.  The conversion of an
      [int] to a [float] is correctly rounded; for an [int] beyond the range
      of a double Python raises [OverflowError], where [binary64] converts
      to an infinity.
    - A [datetime] is its position on the time line (a [Z]); the text that
      [isoformat()] stores sorts in the same order.
    - A table with a primary key is a finite map from the key to the other
      columns; the [trades] table, whose key is an auto-incremented row id,
      is the list of its rows in insertion order.
    - Every helper of the source opens its own connection and commits before
      it returns, so a helper is one committed step on the database. *)

From Stdlib Require Import ZArith QArith Lqa Lia Bool String List Floats.
From stdpp Require Import gmap strings list fin_maps sorting.
Import ListNotations.

Set Warnings "-inexact-float".

Local Open Scope Z_scope.

(** ** Python values *)

Module Py.

(** The exceptions the modelled code can raise. *)
Inductive error : Type :=
| ZeroDivisionError
| IndexError.

Inductive result (A : Type) : Type :=
| Ok (a : A)
| Raise (e : error).
Arguments Ok {A} a.
Arguments Raise {A} e.

Definition bind {A B : Type} (m : result A) (k : A -> result B) : result B :=
  match m with
  | Ok a => k a
  | Raise e => Raise e
  end.

(** The operations on [float] that the program uses, on a carrier [num]:
    the literals [0] (also the [int] 0 that [sum] starts from and that a
    quantity is compared with) and [0.0001], the four operations, negation,
    the conversion of the [int] divisor of an average, and the comparisons
    [<], [<=] and [== 0]. *)
Class Arith (num : Type) : Type := {
  zero : num;
  min_trade : num;
  add : num -> num -> num;
  sub : num -> num -> num;
  mul : num -> num -> num;
  div : num -> num -> num;
  opp : num -> num;
  of_int : Z -> num;
  lt : num -> num -> bool;
  le : num -> num -> bool;
  is_zero : num -> bool
}.

(** [len(xs)]. *)
Definition len {T : Type} (xs : list T) : Z := Z.of_nat (length xs).

(** How a slice bound is clamped into [0 .. len]: [None] is an omitted
    bound, a negative bound counts from the end. *)
Definition clamp (n : Z) (dflt : Z) (bound : option Z) : Z :=
  match bound with
  | None => dflt
  | Some i => if i <? 0 then Z.max (n + i) 0 else Z.min i n
  end.

(** [xs[start:stop]]. *)
Definition slice {T : Type} (xs : list T) (start stop : option Z) : list T :=
  let n := len xs in
  let lo := clamp n 0 start in
  let hi := clamp n n stop in
  firstn (Z.to_nat (hi - lo)) (skipn (Z.to_nat lo) xs).

(** [xs[-1]]. *)
Definition last_item {T : Type} (xs : list T) : result T :=
  match last xs with
  | Some x => Ok x
  | None => Raise IndexError
  end.

(** [x / y] for two floats. *)
Definition truediv {num : Type} `{!Arith num} (x y : num) : result num :=
  if is_zero y then Raise ZeroDivisionError else Ok (div x y).

(** [x / n] for a float (or the [int] 0 that [sum] gives on an empty list)
    and an [int]. *)
Definition truediv_int {num : Type} `{!Arith num} (x : num) (n : Z) : result num :=
  if n =? 0 then Raise ZeroDivisionError else Ok (div x (of_int n)).

(** [sum(xs)]: left to right, starting from the [int] 0. *)
Definition sum {num : Type} `{!Arith num} (xs : list num) : num :=
  fold_left add xs zero.

End Py.

Import Py.

Declare Scope py_scope.
Delimit Scope py_scope with py.
Infix "+" := add : py_scope.
Infix "-" := sub : py_scope.
Infix "*" := mul : py_scope.
Infix "/" := div : py_scope.
Notation "- x" := (opp x) : py_scope.

(** [result] is used through stdpp's monad notation [x ← m; k]. *)
Global Instance result_ret : MRet result := @Ok.
Global Instance result_bind : MBind result := fun A B k m => bind m k.

(** ** The two arithmetics *)

(** Python's [float]: binary64.  An [int] is converted by rounding it to the
    nearest double, ties to even. *)
Global Instance binary64 : Arith float :=
  {| zero := 0%float;
     min_trade := 0.0001%float;
     add := PrimFloat.add;
     sub := PrimFloat.sub;
     mul := PrimFloat.mul;
     div := PrimFloat.div;
     opp := PrimFloat.opp;
     of_int := fun n : Z => SF2Prim (binary_normalize prec emax n 0 false);
     lt := PrimFloat.ltb;
     le := PrimFloat.leb;
     is_zero := fun x : float => PrimFloat.eqb x 0%float |}.

(** The rationals, without rounding. *)
Global Instance exact : Arith Q :=
  {| zero := 0%Q;
     min_trade := (1 # 10000)%Q;
     add := Qplus;
     sub := Qminus;
     mul := Qmult;
     div := Qdiv;
     opp := Qopp;
     of_int := inject_Z;
     lt := fun x y : Q => negb (Qle_bool y x);
     le := Qle_bool;
     is_zero := fun x : Q => Qeq_bool x 0 |}.

(** The order laws that the control flow relies on.  Both arithmetics have
    them. *)
Class Lawful (num : Type) `{!Arith num} : Prop := {
  is_zero_zero : is_zero zero = true;
  zero_le_zero : le zero zero = true;
  zero_not_positive : forall x : num, is_zero x = true -> lt zero x = false;
  le_not_gt : forall x y : num, le x y = true -> lt y x = false;
  lt_asymmetric : forall x y : num, lt x y = true -> lt y x = false;
  lt_le : forall x y : num, lt x y = true -> le x y = true;
  zero_quotients : forall a b : num, lt (div zero a) (div zero b) = false
}.

(** ** The simulator object and its database *)

Section Engine.
Context {num : Type} `{!Arith num}.

(** The attributes of [TradingSimulator] the engine reads.  ([symbols],
    [db_path] and [fetch_interval_minutes] only drive the polling loop.) *)
Record TradingSimulator : Type := {
  short_ma : Z;
  long_ma : Z;
  position_size_fraction : num
}.

(** A row of [trades] without its auto-incremented [id], which is the
    position of the row in the table. *)
Record trade : Type := {
  trade_timestamp : Z;
  trade_symbol : string;
  trade_action : string;
  trade_price : num;
  trade_quantity : num;
  trade_balance : num
}.

(** The four tables created by [_init_db]:
    - [prices], primary key [(timestamp, symbol)];
    - [trades], in insertion order;
    - [portfolio], primary key [symbol];
    - [cash], at most one row (the one with [id = 1]). *)
Record db : Type := {
  prices : gmap (Z * string) num;
  trades : list trade;
  portfolio : gmap string num;
  cash : option num
}.

(** A database file that does not exist yet. *)
Definition empty_db : db :=
  {| prices := ∅; trades := []; portfolio := ∅; cash := None |}.

(** [_init_db]: the tables are created if they are missing, and the cash
    row is inserted unless there is one already. *)
Definition _init_db (st : db) (starting_balance : num) : db :=
  match cash st with
  | None => {| prices := prices st; trades := trades st;
               portfolio := portfolio st; cash := Some starting_balance |}
  | Some _ => st
  end.

(** *** Price history *)

(** [INSERT OR REPLACE INTO prices (timestamp, symbol, price)]. *)
Definition _store_price (st : db) (timestamp : Z) (symbol : string) (price : num) : db :=
  {| prices := <[(timestamp, symbol) := price]> (prices st);
     trades := trades st; portfolio := portfolio st; cash := cash st |}.

(** The rows [WHERE symbol = ?], each as (timestamp, price). *)
Definition rows_of_symbol (st : db) (symbol : string) : list (Z * num) :=
  omap (fun row : Z * string * num =>
          if decide (row.1.2 = symbol) then Some (row.1.1, row.2) else None)
       (map_to_list (prices st)).

(** [ORDER BY timestamp DESC]: the later timestamp comes first. *)
Definition later_first (r1 r2 : Z * num) : Prop := r2.1 <= r1.1.

Global Instance later_first_dec : RelDecision later_first.
Proof. intros r1 r2. unfold later_first. apply _. Defined.

(** [LIMIT n]: SQLite gives every row when [n] is negative. *)
Definition sql_limit {T : Type} (n : Z) (rows : list T) : list T :=
  if n <? 0 then rows else firstn (Z.to_nat n) rows.

(** The rows that the query of [_get_recent_prices] fetches. *)
Definition recent_rows (st : db) (symbol : string) (periods : Z) : list (Z * num) :=
  sql_limit periods (merge_sort later_first (rows_of_symbol st symbol)).

(** [_get_recent_prices]: [[row[0] for row in reversed(rows)]]. *)
Definition _get_recent_prices (st : db) (symbol : string) (periods : Z) : list num :=
  map snd (reverse (recent_rows st symbol periods)).

(** *** Account state and trade ledger *)

Definition _get_cash_balance (st : db) : num :=
  match cash st with
  | Some balance => balance
  | None => zero
  end.

(** [UPDATE cash SET balance = ? WHERE id = 1]: changes the row if there is
    one and nothing otherwise. *)
Definition _update_cash_balance (st : db) (new_balance : num) : db :=
  {| prices := prices st; trades := trades st; portfolio := portfolio st;
     cash := match cash st with
             | Some _ => Some new_balance
             | None => None
             end |}.

Definition _get_portfolio_quantity (st : db) (symbol : string) : num :=
  match portfolio st !! symbol with
  | Some quantity => quantity
  | None => zero
  end.

Definition _update_portfolio_quantity (st : db) (symbol : string) (quantity : num) : db :=
  {| prices := prices st; trades := trades st;
     portfolio := if is_zero quantity
                  then delete symbol (portfolio st)
                  else <[symbol := quantity]> (portfolio st);
     cash := cash st |}.

Definition _log_trade (st : db) (timestamp : Z) (symbol action : string)
    (price quantity balance : num) : db :=
  {| prices := prices st;
     trades := trades st ++ [ {| trade_timestamp := timestamp; trade_symbol := symbol;
                                 trade_action := action; trade_price := price;
                                 trade_quantity := quantity; trade_balance := balance |} ];
     portfolio := portfolio st; cash := cash st |}.

(** ** Trade execution *)

(** The lines [_execute_trade] prints. *)
Inductive message : Type :=
| NotEnoughCash (timestamp : Z) (symbol : string)
| Bought (timestamp : Z) (qty : num) (symbol : string) (price new_cash : num)
| Sold (timestamp : Z) (qty : num) (symbol : string) (price new_cash : num).

(** What a call does before it returns: the database as it stands after each
    commit, in the order of the commits, and the lines printed. *)
Record effects : Type := {
  commits : list db;
  printed : list message
}.

Definition no_effect : effects := {| commits := []; printed := [] |}.

(** The database a call leaves behind when it started from [st]. *)
Definition state_after (st : db) (e : effects) : db := List.last (commits e) st.

(** [_execute_trade]; [now] is the value of [datetime.utcnow()]. *)
Definition _execute_trade (self : TradingSimulator) (st : db)
    (symbol action : string) (price : num) (now : Z) : result effects :=
  let timestamp := now in
  let cash := _get_cash_balance st in
  let quantity_owned := _get_portfolio_quantity st symbol in
  if String.eqb action "BUY" then
    let spend := (cash * position_size_fraction self)%py in
    if lt spend min_trade then
      Ok {| commits := []; printed := [NotEnoughCash timestamp symbol] |}
    else
      qty ← truediv spend price;
      let new_cash := (cash - spend)%py in
      let new_qty := (quantity_owned + qty)%py in
      let st1 := _update_cash_balance st new_cash in
      let st2 := _update_portfolio_quantity st1 symbol new_qty in
      let st3 := _log_trade st2 timestamp symbol action price qty new_cash in
      Ok {| commits := [st1; st2; st3];
            printed := [Bought timestamp qty symbol price new_cash] |}
  else if String.eqb action "SELL" && lt zero quantity_owned then
    let qty := quantity_owned in
    let proceeds := (qty * price)%py in
    let new_cash := (cash + proceeds)%py in
    let st1 := _update_cash_balance st new_cash in
    let st2 := _update_portfolio_quantity st1 symbol zero in
    let st3 := _log_trade st2 timestamp symbol action price (- qty)%py new_cash in
    Ok {| commits := [st1; st2; st3];
          printed := [Sold timestamp qty symbol price new_cash] |}
  else
    Ok no_effect.

(** A request to the executor, and a run of requests one after the other,
    each on the database the previous one left. *)
Record order : Type := {
  order_symbol : string;
  order_action : string;
  order_price : num;
  order_time : Z
}.

Fixpoint execute_all (self : TradingSimulator) (st : db) (orders : list order)
    : result db :=
  match orders with
  | [] => Ok st
  | o :: rest =>
      e ← _execute_trade self st (order_symbol o) (order_action o)
            (order_price o) (order_time o);
      execute_all self (state_after st e) rest
  end.

(** ** Signal detection *)

Inductive signal : Type := BUY | SELL | HOLD.

(** The decision taken by [_evaluate_strategy] on the prices it has read:
    the length test, the four averages and the two crossover tests. *)
Definition crossover_signal (self : TradingSimulator) (prices : list num) : result signal :=
  if len prices <? long_ma self + 1 then Ok HOLD
  else
    short_ma_old ← truediv_int
      (sum (slice prices (Some (- (short_ma self + 1))) (Some (-1)))) (short_ma self);
    long_ma_old ← truediv_int
      (sum (slice prices (Some (- (long_ma self + 1))) (Some (-1)))) (long_ma self);
    short_ma_new ← truediv_int
      (sum (slice prices (Some (- short_ma self)) None)) (short_ma self);
    long_ma_new ← truediv_int
      (sum (slice prices (Some (- long_ma self)) None)) (long_ma self);
    if le short_ma_old long_ma_old && lt long_ma_new short_ma_new then Ok BUY
    else if le long_ma_old short_ma_old && lt short_ma_new long_ma_new then Ok SELL
    else Ok HOLD.

(** [_evaluate_strategy]: read the last [long_ma + 1] prices, decide, and
    trade at the newest price on a crossover. *)
Definition _evaluate_strategy (self : TradingSimulator) (st : db)
    (symbol : string) (now : Z) : result effects :=
  let prices := _get_recent_prices st symbol (long_ma self + 1) in
  decision ← crossover_signal self prices;
  match decision with
  | BUY =>
      current_price ← last_item prices;
      _execute_trade self st symbol "BUY" current_price now
  | SELL =>
      current_price ← last_item prices;
      _execute_trade self st symbol "SELL" current_price now
  | HOLD => Ok no_effect
  end.

(** ** The polling job and the main loop *)

(** What the outside world answers while [_job] handles one symbol of
    [self.symbols]: the value [_fetch_price] returned for it ([None] after a
    failed request) and the clock a trade on it would read. *)
Record poll : Type := {
  poll_symbol : string;
  fetched : option num;
  trade_clock : Z
}.

(** How a job ends: the database it leaves, the lines its trades printed,
    and the exception that stopped it, if one did. *)
Record job_result : Type := {
  job_db : db;
  job_printed : list message;
  job_raised : option error
}.

(** [_job]: for each symbol in turn, store the fetched price under the
    job's timestamp and evaluate the strategy; a symbol whose fetch failed
    is passed over.  An exception of the strategy ends the job, after the
    price of that symbol has been stored. *)
Fixpoint _job (self : TradingSimulator) (st : db) (timestamp : Z)
    (polls : list poll) : job_result :=
  match polls with
  | [] => {| job_db := st; job_printed := []; job_raised := None |}
  | p :: rest =>
      match fetched p with
      | None => _job self st timestamp rest
      | Some price =>
          let st1 := _store_price st timestamp (poll_symbol p) price in
          match _evaluate_strategy self st1 (poll_symbol p) (trade_clock p) with
          | Raise exn =>
              {| job_db := st1; job_printed := []; job_raised := Some exn |}
          | Ok e =>
              let later := _job self (state_after st1 e) timestamp rest in
              {| job_db := job_db later;
                 job_printed := printed e ++ job_printed later;
                 job_raised := job_raised later |}
          end
      end
  end.

(** [max(0, fetch_interval_minutes * 60 - elapsed)], the time [run] waits
    after a job that took [elapsed] seconds: the [int] number of seconds is
    converted, the elapsed time subtracted, and the [int] 0 returned unless
    the difference is greater. *)
Definition sleep_seconds (fetch_interval_minutes : Z) (elapsed : num) : num :=
  let remaining := (of_int (fetch_interval_minutes * 60) - elapsed)%py in
  if lt zero remaining then remaining else zero.

(** One turn of the loop of [run] as the outside world shapes it: the
    clock the job reads, the answers to its polls and the seconds it took. *)
Record tick : Type := {
  tick_timestamp : Z;
  tick_polls : list poll;
  tick_elapsed : num
}.

(** The first turns of the loop of [run], one per given tick: the database
    and exception state they end in, the lines the trades printed and the
    waits after the jobs.  The loop has no handler, so an exception of a job
    ends it.  The line that [run] prints once before the loop is left out. *)
Fixpoint run (self : TradingSimulator) (fetch_interval_minutes : Z) (st : db)
    (ticks : list tick) : job_result * list num :=
  match ticks with
  | [] => ({| job_db := st; job_printed := []; job_raised := None |}, [])
  | t :: rest =>
      let done := _job self st (tick_timestamp t) (tick_polls t) in
      match job_raised done with
      | Some _ => (done, [])
      | None =>
          let wait := sleep_seconds fetch_interval_minutes (tick_elapsed t) in
          let later := run self fetch_interval_minutes (job_db done) rest in
          ({| job_db := job_db later.1;
              job_printed := job_printed done ++ job_printed later.1;
              job_raised := job_raised later.1 |},
           wait :: later.2)
      end
  end.

(** The price table after the fetched prices of some polls have been
    written to it under one timestamp, a failed fetch writing nothing. *)
Definition record_quotes (timestamp : Z) (polls : list poll)
    (table : gmap (Z * string) num) : gmap (Z * string) num :=
  fold_left
    (fun (m : gmap (Z * string) num) (p : poll) =>
       match fetched p with
       | Some price => <[(timestamp, poll_symbol p) := price]> m
       | None => m
       end)
    polls table.

(** ** Predicates on databases *)

(** A database is in step with a call that started from [before] and ended
    in [after] when its cash balance and its holdings are both those of
    [before] or both those of [after]. *)
Definition account_in_step (before after s : db) : Prop :=
  (cash s = cash before /\ portfolio s = portfolio before) \/
  (cash s = cash after /\ portfolio s = portfolio after).

(** A call updates the account atomically when every database it commits is
    in step with it. *)
Definition atomic_account_update (st : db) (e : effects) : Prop :=
  Forall (account_in_step st (state_after st e)) (commits e).

(** [(timestamp, price)] is an observation stored for [symbol]. *)
Definition observed (st : db) (symbol : string) (row : Z * num) : Prop :=
  prices st !! (row.1, symbol) = Some row.2.

(** The cash balance is the one the last ledger record shows. *)
Definition ledger_shows_balance (st : db) : Prop :=
  match last (trades st) with
  | Some t => cash st = Some (trade_balance t)
  | None => True
  end.

(** ** The averages as the specification words them *)

(** The mean of a list of prices: their sum over their number. *)
Definition mean (xs : list num) : result num := truediv_int (sum xs) (len xs).

(** The window of [k] prices that ends one observation before the newest,
    [prices[-(k+1):-1]], and the window of the [k] newest, [prices[-k:]]. *)
Definition old_window (k : Z) (prices : list num) : list num :=
  slice prices (Some (- (k + 1))) (Some (-1)).

Definition new_window (k : Z) (prices : list num) : list num :=
  slice prices (Some (- k)) None.

End Engine.

Arguments TradingSimulator : clear implicits.
Arguments trade : clear implicits.
Arguments db : clear implicits.
Arguments message : clear implicits.
Arguments effects : clear implicits.
Arguments order : clear implicits.
Arguments poll : clear implicits.
Arguments job_result : clear implicits.
Arguments tick : clear implicits.

(** ** Predicates of the exact arithmetic *)



(** Every price that the polls fetched is positive. *)
Definition quotes_positive (polls : list (poll Q)) : Prop :=
  Forall (fun p : poll Q =>
            forall price : Q, fetched p = Some price -> (0 < price)%Q) polls.



(** ** Sample data

    The simulator that [main] builds, and small databases on which the
    statements below are evaluated.  Whole numbers are given as [int]s and
    converted, which is exact in both arithmetics. *)

Section Samples.
Context {num : Type} `{!Arith num}.

(** The database right after [_init_db] with the default starting balance. *)
Definition fresh_account : db num := _init_db empty_db (of_int 10000).

(** A series of prices stored for a symbol at consecutive timestamps. *)
Fixpoint store_series (st : db num) (symbol : string) (start : Z)
    (series : list num) : db num :=
  match series with
  | [] => st
  | price :: rest =>
      store_series (_store_price st start symbol price) symbol (start + 1) rest
  end.

(** The 21 prices of the worked crossover: fifteen at 100, then a dip and a
    recovery. *)
Definition dip_and_recovery : list num :=
  map of_int (repeat 100 15 ++ [90; 88; 95; 105; 112; 120]).

(** The first 20 of them, stored for one symbol at timestamps 1 to 20. *)
Definition dip_history : db num :=
  store_series fresh_account "BTCUSDT" 1 (removelast dip_and_recovery).

(** The history once the price that completes the crossover is stored. *)
Definition crossing_history : db num :=
  _store_price dip_history 21 "BTCUSDT" (of_int 120).

(** Two BUYs, a SELL of the first position and a request that is neither. *)
Definition sample_orders : list (order num) :=
  [ {| order_symbol := "BTCUSDT"; order_action := "BUY";
       order_price := of_int 100; order_time := 1 |};
    {| order_symbol := "ETHUSDT"; order_action := "BUY";
       order_price := of_int 50; order_time := 2 |};
    {| order_symbol := "BTCUSDT"; order_action := "SELL";
       order_price := of_int 120; order_time := 3 |};
    {| order_symbol := "ETHUSDT"; order_action := "HOLD";
       order_price := of_int 55; order_time := 4 |} ].

(** A price history written out of order, with two symbols. *)
Definition sample_history : db num :=
  _store_price
    (_store_price
       (_store_price (_store_price fresh_account 3 "BTCUSDT" (of_int 30))
          1 "BTCUSDT" (of_int 10))
       2 "ETHUSDT" (of_int 99))
    2 "BTCUSDT" (of_int 20).

(** The polls of one job: a quote for the first symbol, a failed fetch for
    the second. *)
Definition sample_polls : list (poll num) :=
  [ {| poll_symbol := "BTCUSDT"; fetched := Some (of_int 40); trade_clock := 5 |};
    {| poll_symbol := "ETHUSDT"; fetched := None; trade_clock := 6 |} ].

(** The polls of the job that completes the worked crossover, for the same
    two symbols, and the polls of the job after it, in which the price falls
    back. *)
Definition crossing_polls : list (poll num) :=
  [ {| poll_symbol := "BTCUSDT"; fetched := Some (of_int 120); trade_clock := 22 |};
    {| poll_symbol := "ETHUSDT"; fetched := Some (of_int 50); trade_clock := 23 |} ].

Definition falling_polls : list (poll num) :=
  [ {| poll_symbol := "BTCUSDT"; fetched := Some (of_int 60); trade_clock := 25 |};
    {| poll_symbol := "ETHUSDT"; fetched := Some (of_int 51); trade_clock := 26 |} ].

(** Two turns of the main loop on these polls. *)
Definition sample_ticks : list (tick num) :=
  [ {| tick_timestamp := 21; tick_polls := crossing_polls; tick_elapsed := of_int 2 |};
    {| tick_timestamp := 24; tick_polls := falling_polls; tick_elapsed := of_int 400 |} ].

End Samples.

(** The simulator that [main] builds. *)
Definition default_simulator : TradingSimulator float :=
  {| short_ma := 5; long_ma := 20; position_size_fraction := 0.05%float |}.

(** An account that holds 5 units bought for 500 out of 10000. *)
Definition account_holding_five : db float :=
  {| prices := ∅; trades := [];
     portfolio := {[ "BTCUSDT"%string := 5%float ]}; cash := Some 9500%float |}.

(** A simulator whose short window is 0, and one with windows of 2 and 3. *)
Definition zero_window_simulator : TradingSimulator float :=
  {| short_ma := 0; long_ma := 2; position_size_fraction := 0.05%float |}.

Definition small_window_simulator : TradingSimulator float :=
  {| short_ma := 2; long_ma := 3; position_size_fraction := 0.05%float |}.

(** The simulator of [main] with a position size fraction of 0.007. *)
Definition small_fraction_simulator : TradingSimulator float :=
  {| short_ma := 5; long_ma := 20; position_size_fraction := 0.007%float |}.

(** The simulator of [main] in the exact arithmetic. *)
Definition exact_simulator : TradingSimulator Q :=
  {| short_ma := 5; long_ma := 20; position_size_fraction := (5 # 100)%Q |}.


(** * Properties *)

(** ** The order laws in the two arithmetics *)

(** Comparing two doubles one way round gives the opposite of comparing
    them the other way round, and nothing when one of them is a NaN. *)
Lemma SFcompare_antisym (x y : spec_float) :
  SFcompare y x = option_map CompOpp (SFcompare x y).
Proof.
  destruct x as [[]|[]| |[] mx ex], y as [[]|[]| |[] my ey]; simpl; try reflexivity.
  - rewrite (Z.compare_antisym ex ey). destruct (ex ?= ey)%Z; simpl; try reflexivity.
    pose proof (Pos.compare_cont_antisym mx my Eq) as Hm. simpl in Hm.
    rewrite <- Hm. now destruct (Pos.compare_cont Eq mx my).
  - rewrite (Z.compare_antisym ex ey). destruct (ex ?= ey)%Z; simpl; try reflexivity.
    pose proof (Pos.compare_cont_antisym mx my Eq) as Hm. simpl in Hm.
    rewrite <- Hm. now destruct (Pos.compare_cont Eq mx my).
Qed.

Global Instance binary64_lawful : Lawful float.
Proof.
  split; simpl.
  - reflexivity.
  - reflexivity.
  - intros x. rewrite FloatAxioms.eqb_spec, FloatAxioms.ltb_spec. unfold SFeqb, SFltb.
    rewrite (SFcompare_antisym (Prim2SF x)).
    now destruct (SFcompare (Prim2SF x) (Prim2SF 0)) as [[]|].
  - intros x y. rewrite FloatAxioms.leb_spec, FloatAxioms.ltb_spec. unfold SFleb, SFltb.
    rewrite (SFcompare_antisym (Prim2SF x)).
    now destruct (SFcompare (Prim2SF x) (Prim2SF y)) as [[]|].
  - intros x y. rewrite !FloatAxioms.ltb_spec. unfold SFltb.
    rewrite (SFcompare_antisym (Prim2SF x)).
    now destruct (SFcompare (Prim2SF x) (Prim2SF y)) as [[]|].
  - intros x y. rewrite FloatAxioms.leb_spec, FloatAxioms.ltb_spec. unfold SFleb, SFltb.
    now destruct (SFcompare (Prim2SF x) (Prim2SF y)) as [[]|].
  - intros a b. rewrite FloatAxioms.ltb_spec, !FloatAxioms.div_spec.
    change (Prim2SF 0) with (S754_zero false).
    unfold SF64div, SFdiv.
    destruct (Prim2SF a) as [[]|[]| |[] ? ?], (Prim2SF b) as [[]|[]| |[] ? ?];
      reflexivity.
Qed.

Lemma lt_spec (x y : Q) : lt x y = true <-> (x < y)%Q.
Proof.
  simpl. rewrite negb_true_iff, <- not_true_iff_false, Qle_bool_iff.
  split; [apply Qnot_le_lt | apply Qlt_not_le].
Qed.

Lemma lt_false (x y : Q) : lt x y = false <-> (y <= x)%Q.
Proof.
  simpl. rewrite negb_false_iff. apply Qle_bool_iff.
Qed.

Lemma le_spec (x y : Q) : le x y = true <-> (x <= y)%Q.
Proof. apply Qle_bool_iff. Qed.

Lemma is_zero_spec (x : Q) : is_zero x = true <-> (x == 0)%Q.
Proof. apply Qeq_bool_iff. Qed.


Global Instance exact_lawful : Lawful Q.
Proof.
  split.
  - reflexivity.
  - reflexivity.
  - intros x Hx. apply is_zero_spec in Hx. apply lt_false. simpl. lra.
  - intros x y Hxy. apply le_spec in Hxy. now apply lt_false.
  - intros x y Hxy. apply lt_spec in Hxy. apply lt_false. lra.
  - intros x y Hxy. apply lt_spec in Hxy. apply le_spec. lra.
  - intros a b. reflexivity.
Qed.

Section Comparisons.
Context {num : Type} `{!Arith num} `{!Lawful num}.

Lemma zero_not_below_zero : lt zero zero = false.
Proof. apply zero_not_positive, is_zero_zero. Qed.

Lemma positive_not_zero (x : num) : lt zero x = true -> is_zero x = false.
Proof.
  intros Hpos. destruct (is_zero x) eqn:Hz; [| reflexivity].
  apply zero_not_positive in Hz. congruence.
Qed.

End Comparisons.

Section Division.
Context {num : Type} `{!Arith num}.

Lemma truediv_nonzero (x y : num) : is_zero y = false -> truediv x y = Ok (x / y)%py.
Proof. intros Hy. unfold truediv. now rewrite Hy. Qed.

Lemma truediv_zero (x y : num) : is_zero y = true -> truediv x y = Raise ZeroDivisionError.
Proof. intros Hy. unfold truediv. now rewrite Hy. Qed.

End Division.

(** ** Actions other than BUY and SELL *)

(** C10. For every symbol, price and action string other than "BUY" and
    "SELL", trade execution returns normally and does nothing: no commit is
    made, so the cash balance, every holding and the trade ledger are
    unchanged and no trade record is appended.  This holds in every
    arithmetic. *)
Theorem execute_other_action_noop :
  forall {num : Type} `{!Arith num}
         (self : TradingSimulator num) (st : db num) (symbol action : string)
         (price : num) (now : Z),
    action <> "BUY"%string -> action <> "SELL"%string ->
    _execute_trade self st symbol action price now = Ok no_effect /\
    state_after st no_effect = st.
Proof.
  intros num HA self st symbol action price now Hbuy Hsell.
  split; [| reflexivity].
  unfold _execute_trade.
  apply String.eqb_neq in Hbuy, Hsell.
  rewrite Hbuy, Hsell. reflexivity.
Qed.

Lemma execute_other_action_noop_witness :
  _execute_trade default_simulator
    fresh_account "BTCUSDT" "HOLD" 100%float 0 = Ok no_effect /\
  state_after (num := float) fresh_account no_effect = fresh_account.
Proof.
  apply (execute_other_action_noop (num := float)); discriminate.
Defined.

(** ** The account tables *)

Section Account.
Context {num : Type} `{!Arith num}.

Variable st : db num.

Lemma cash_balance_of_row (c : num) : cash st = Some c -> _get_cash_balance st = c.
Proof. unfold _get_cash_balance. now intros ->. Qed.

(** Reading a holding back after [_update_portfolio_quantity]: the quantity
    written, or 0 when that quantity compared equal to 0 and the row was
    removed. *)
Lemma quantity_after_update (symbol : string) (quantity : num) :
  _get_portfolio_quantity (_update_portfolio_quantity st symbol quantity) symbol
    = if is_zero quantity then zero else quantity.
Proof.
  unfold _get_portfolio_quantity, _update_portfolio_quantity. simpl.
  destruct (is_zero quantity).
  - now rewrite lookup_delete_eq.
  - now rewrite lookup_insert_eq.
Qed.

Lemma other_row_after_update (symbol other : string) (quantity : num) :
  other <> symbol ->
  portfolio (_update_portfolio_quantity st symbol quantity) !! other
    = portfolio st !! other.
Proof.
  intros Hne. simpl. destruct (is_zero quantity).
  - now rewrite lookup_delete_ne.
  - now rewrite lookup_insert_ne.
Qed.

(** Every database that [_init_db] has been run on has its cash row, and no
    trade removes it. *)
Lemma init_db_cash_row (starting_balance : num) :
  is_Some (cash (_init_db st starting_balance)).
Proof.
  unfold _init_db. destruct (cash st) eqn:Hrow; simpl; [rewrite Hrow |]; eauto.
Qed.

Lemma execute_trade_keeps_cash_row (self : TradingSimulator num)
    (symbol action : string) (price : num) (now : Z) (e : effects num) :
  _execute_trade self st symbol action price now = Ok e ->
  is_Some (cash st) -> is_Some (cash (state_after st e)).
Proof.
  unfold _execute_trade. intros Hrun [c Hrow].
  destruct (String.eqb action "BUY").
  - destruct (lt _ _).
    + injection Hrun as <-. simpl. eauto.
    + destruct (truediv _ price); [| discriminate].
      injection Hrun as <-. unfold state_after. simpl. rewrite Hrow. eauto.
  - destruct (String.eqb action "SELL" && lt zero _); injection Hrun as <-.
    + unfold state_after. simpl. rewrite Hrow. eauto.
    + simpl. eauto.
Qed.

End Account.

(** ** BUY below the minimum trade size *)

(** C7. For every BUY whose spend, the product of the cash balance and the
    position size fraction as the arithmetic computes it, tests strictly
    below 0.0001, the call returns normally after printing the
    not-enough-cash line: nothing is committed, so the cash balance, every
    holding and the trade ledger are unchanged and no trade record is
    appended.  This holds in every arithmetic, so in binary64, where the
    spend is the rounded product. *)
Theorem buy_below_minimum_skipped :
  forall {num : Type} `{!Arith num}
         (self : TradingSimulator num) (st : db num) (symbol : string)
         (price : num) (now : Z),
    lt (_get_cash_balance st * position_size_fraction self)%py min_trade = true ->
    exists e : effects num,
      _execute_trade self st symbol "BUY" price now = Ok e /\
      commits e = [] /\
      printed e = [NotEnoughCash now symbol] /\
      state_after st e = st.
Proof.
  intros num HA self st symbol price now Hspend.
  unfold _execute_trade. simpl String.eqb. cbv iota.
  rewrite Hspend.
  eexists; repeat split.
Qed.

Lemma buy_below_minimum_skipped_witness :
  exists e : effects float,
    _execute_trade default_simulator
      (_init_db (num := float) empty_db 0.001%float) "BTCUSDT" "BUY" 100%float 7
      = Ok e /\
    commits e = [] /\
    printed e = [NotEnoughCash 7 "BTCUSDT"] /\
    state_after (_init_db (num := float) empty_db 0.001%float) e
      = _init_db (num := float) empty_db 0.001%float.
Proof.
  apply (buy_below_minimum_skipped (num := float)). reflexivity.
Defined.


(** The test is on the rounded product.  With a cash balance of
    0.014285714285714285 and a fraction of 0.007 the product of the two
    doubles lies below 1/10000, but it rounds to the double 0.0001: the
    test fails and the BUY goes through, with its three commits. *)
Example spend_rounded_up_to_minimum :
  let self := small_fraction_simulator in
  let st := _init_db (num := float) empty_db 0.014285714285714285%float in
  (0.014285714285714285 * 0.007 = 0.0001)%float /\
  (Prim2SF 0.014285714285714285 = S754_finite false 8235153604334621 (-59) /\
   Prim2SF 0.007 = S754_finite false 8070450532247929 (-60) /\
   Prim2SF 0.0001 = S754_finite false 7378697629483821 (-66) /\
   8235153604334621 * 8070450532247929 < 7378697629483821 * 2 ^ 53) /\
  exists e : effects float,
    _execute_trade self st "BTCUSDT" "BUY" 100%float 7 = Ok e /\
    length (commits e) = 3%nat /\
    cash (state_after st e) = Some 0.014185714285714286%float.
Proof.
  cbv zeta. split; [reflexivity |]. split; [repeat split |].
  eexists. split; [reflexivity |]. split; reflexivity.
Qed.


(** ** SELL *)

(** C3. For a symbol with holding quantity [qty] and a price [price]: when
    [qty > 0] a SELL liquidates the whole position, so afterwards the row of
    the symbol is removed and its holding reads 0, the cash balance is the
    old one plus [qty * price], exactly one trade record is appended, with
    quantity [- qty] and the new cash balance, and nothing else changes;
    when [qty == 0] a SELL returns normally, prints nothing and commits
    nothing, leaving cash, holdings and ledger as they were.  The product
    and the sum are those of the arithmetic: in binary64 the new cash
    balance is the rounded sum of the old one and the rounded product. *)
Theorem sell_liquidates_or_noop :
  forall {num : Type} `{!Arith num} `{!Lawful num}
         (self : TradingSimulator num) (st : db num)
         (symbol : string) (price : num) (now : Z),
    let qty := _get_portfolio_quantity st symbol in
    (forall c : num,
        lt zero qty = true -> cash st = Some c ->
        exists e : effects num,
          _execute_trade self st symbol "SELL" price now = Ok e /\
          let st' := state_after st e in
          portfolio st' = delete symbol (portfolio st) /\
          _get_portfolio_quantity st' symbol = zero /\
          cash st' = Some (c + qty * price)%py /\
          trades st' = trades st ++
            [ {| trade_timestamp := now; trade_symbol := symbol;
                 trade_action := "SELL"; trade_price := price;
                 trade_quantity := (- qty)%py;
                 trade_balance := (c + qty * price)%py |} ] /\
          prices st' = prices st /\
          printed e = [Sold now qty symbol price (c + qty * price)%py]) /\
    (is_zero qty = true ->
        _execute_trade self st symbol "SELL" price now = Ok no_effect /\
        state_after st no_effect = st).
Proof.
  intros num HA L self st symbol price now qty. split.
  - intros c Hpos Hcash.
    unfold _execute_trade. simpl String.eqb. cbv iota.
    fold qty. rewrite Hpos. simpl andb. cbv iota.
    eexists. split; [reflexivity |].
    rewrite (cash_balance_of_row st c Hcash).
    unfold state_after. simpl.
    rewrite Hcash, is_zero_zero.
    repeat split.
    unfold _get_portfolio_quantity. simpl.
    now rewrite is_zero_zero, lookup_delete_eq.
  - intros Hzero. split; [| reflexivity].
    apply zero_not_positive in Hzero.
    unfold _execute_trade. simpl String.eqb. cbv iota.
    fold qty. now rewrite Hzero.
Qed.

Lemma sell_liquidates_or_noop_witness :
  (exists e : effects float,
      _execute_trade default_simulator
        account_holding_five "BTCUSDT" "SELL" 120%float 9 = Ok e /\
      let st' := state_after account_holding_five e in
      portfolio st' = delete "BTCUSDT"%string (portfolio account_holding_five) /\
      _get_portfolio_quantity st' "BTCUSDT" = 0%float /\
      cash st' = Some 10100%float /\
      trades st' = trades account_holding_five ++
        [ {| trade_timestamp := 9; trade_symbol := "BTCUSDT";
             trade_action := "SELL"; trade_price := 120%float;
             trade_quantity := (-5)%float;
             trade_balance := 10100%float |} ] /\
      prices st' = prices account_holding_five /\
      printed e = [Sold 9 5%float "BTCUSDT" 120%float 10100%float]) /\
  (_execute_trade default_simulator
     account_holding_five "ETHUSDT" "SELL" 120%float 9 = Ok no_effect /\
   state_after account_holding_five no_effect = account_holding_five).
Proof.
  split.
  - exact (proj1 (sell_liquidates_or_noop (num := float)
                    default_simulator
                    account_holding_five "BTCUSDT" 120%float 9) 9500%float
             eq_refl eq_refl).
  - exact (proj2 (sell_liquidates_or_noop (num := float)
                    default_simulator
                    account_holding_five "ETHUSDT" 120%float 9) eq_refl).
Defined.

(** The proceeds are rounded.  Selling 0.2 units at price 1 on a cash
    balance of 0.1 leaves 0.30000000000000004, and selling 1 unit at price 1
    on a cash balance of 1e16 leaves the cash balance as it was, while the
    position is still removed. *)
Example sell_proceeds_are_rounded :
  let holding (c q : float) : db float :=
    {| prices := ∅; trades := [];
       portfolio := {[ "BTCUSDT"%string := q ]}; cash := Some c |} in
  (exists e : effects float,
     _execute_trade default_simulator (holding 0.1 0.2)%float
       "BTCUSDT" "SELL" 1%float 9 = Ok e /\
     cash (state_after (holding 0.1 0.2)%float e) = Some 0.30000000000000004%float) /\
  (exists e : effects float,
     _execute_trade default_simulator (holding 1e16 1)%float
       "BTCUSDT" "SELL" 1%float 9 = Ok e /\
     cash (state_after (holding 1e16 1)%float e) = Some 1e16%float /\
     portfolio (state_after (holding 1e16 1)%float e) = ∅ /\
     length (trades (state_after (holding 1e16 1)%float e)) = 1%nat).
Proof.
  cbv zeta. split; eexists; (split; [reflexivity |]); repeat split.
Qed.

(** ** BUY *)

(** C2. For every symbol, price and timestamp, a BUY on an account whose cash
    balance is [c], with [spend = c * position_size_fraction] at least
    0.0001, lowers the cash balance to [c - spend], raises the holding of the
    symbol by [spend / price], leaves the other holdings and the price
    history alone, and appends exactly one trade record: action BUY, the
    given price, quantity [spend / price] and the new cash balance.  The
    product, the quotient, the difference and the sum are those of the
    arithmetic, so in binary64 each is rounded; a new holding that compares
    equal to 0 is not stored and reads 0.  The quotient is taken at a price
    that does not compare equal to 0 (observed prices are positive in the
    data model); at price 0 Python raises [ZeroDivisionError] before
    anything is written. *)
Theorem buy_spends_fraction_of_cash :
  forall {num : Type} `{!Arith num} `{!Lawful num}
         (self : TradingSimulator num) (st : db num)
         (symbol : string) (price : num) (now : Z) (c : num),
    cash st = Some c ->
    let spend := (c * position_size_fraction self)%py in
    let qty := (spend / price)%py in
    let new_qty := (_get_portfolio_quantity st symbol + qty)%py in
    le min_trade spend = true ->
    is_zero price = false ->
    exists e : effects num,
      _execute_trade self st symbol "BUY" price now = Ok e /\
      let st' := state_after st e in
      cash st' = Some (c - spend)%py /\
      _get_portfolio_quantity st' symbol = (if is_zero new_qty then zero else new_qty) /\
      (forall other : string,
          other <> symbol -> portfolio st' !! other = portfolio st !! other) /\
      trades st' = trades st ++
        [ {| trade_timestamp := now; trade_symbol := symbol;
             trade_action := "BUY"; trade_price := price;
             trade_quantity := qty;
             trade_balance := (c - spend)%py |} ] /\
      prices st' = prices st /\
      printed e = [Bought now qty symbol price (c - spend)%py].
Proof.
  intros num HA L self st symbol price now c Hcash spend qty new_qty Hmin Hprice.
  apply le_not_gt in Hmin.
  unfold _execute_trade. simpl String.eqb. cbv iota.
  rewrite (cash_balance_of_row st c Hcash). fold spend.
  rewrite Hmin, (truediv_nonzero spend price Hprice).
  eexists. split; [reflexivity |].
  unfold state_after. cbn [commits List.last].
  split; [| split; [| split; [| split; [| split]]]].
  - simpl. now rewrite Hcash.
  - apply (quantity_after_update (_update_cash_balance st (c - spend)%py)).
  - intros other Hne.
    now apply (other_row_after_update (_update_cash_balance st (c - spend)%py)).
  - reflexivity.
  - reflexivity.
  - reflexivity.
Qed.

(** The worked BUY: a cash balance of 10000, a fraction of 0.05 and a price
    of 100 give, in binary64, a spend of 500, a quantity of 5 and a new cash
    balance of 9500. *)
Lemma buy_spends_fraction_of_cash_witness :
  (10000 * 0.05 = 500)%float /\
  exists e : effects float,
    _execute_trade default_simulator fresh_account "BTCUSDT" "BUY" 100%float 0
      = Ok e /\
    let st' := state_after fresh_account e in
    cash st' = Some 9500%float /\
    _get_portfolio_quantity st' "BTCUSDT" = 5%float /\
    (forall other : string,
        other <> "BTCUSDT"%string ->
        portfolio st' !! other = portfolio (num := float) fresh_account !! other) /\
    trades st' = trades fresh_account ++
      [ {| trade_timestamp := 0; trade_symbol := "BTCUSDT";
           trade_action := "BUY"; trade_price := 100%float;
           trade_quantity := 5%float;
           trade_balance := 9500%float |} ] /\
    prices st' = prices fresh_account /\
    printed e = [Bought 0 5%float "BTCUSDT" 100%float 9500%float].
Proof.
  split; [reflexivity |].
  exact (buy_spends_fraction_of_cash (num := float) default_simulator fresh_account
           "BTCUSDT" 100%float 0 10000%float eq_refl eq_refl eq_refl).
Defined.

(** The quantity and the holding are rounded.  A BUY at price 120 on a cash
    balance of 9500 and a holding of 5 spends 475 and brings the holding to
    the double 8.958333333333334, which lies above the rational 215/24. *)
Example bought_quantity_is_rounded :
  exists e : effects float,
    _execute_trade default_simulator account_holding_five "BTCUSDT" "BUY" 120%float 9
      = Ok e /\
    let st' := state_after account_holding_five e in
    cash st' = Some 9025%float /\
    _get_portfolio_quantity st' "BTCUSDT" = 8.958333333333334%float /\
    Prim2SF 8.958333333333334 = S754_finite false 5043093332732587 (-49) /\
    (215 # 24 < 5043093332732587 # 562949953421312)%Q.
Proof.
  eexists. split; [reflexivity |]. repeat split.
Qed.

Lemma buy_at_price_zero_raises :
  forall {num : Type} `{!Arith num}
         (self : TradingSimulator num) (st : db num) (symbol : string)
         (price : num) (now : Z),
    lt (_get_cash_balance st * position_size_fraction self)%py min_trade = false ->
    is_zero price = true ->
    _execute_trade self st symbol "BUY" price now = Raise ZeroDivisionError.
Proof.
  intros num HA self st symbol price now Hmin Hprice.
  unfold _execute_trade. simpl String.eqb. cbv iota.
  now rewrite Hmin, (truediv_zero _ price Hprice).
Qed.

(** ** Slices *)

Section Slices.

Context {T : Type}.
Implicit Types xs : list T.

(** [xs[-(k+1):-1]] holds [k] items when the list has more than [k]. *)
Lemma length_slice_before_last xs (k : Z) :
  0 <= k -> k + 1 <= len xs ->
  len (slice xs (Some (- (k + 1))) (Some (-1))) = k.
Proof.
  intros Hk Hlen. unfold slice, clamp.
  assert (Hneg : (- (k + 1) <? 0) = true) by (apply Z.ltb_lt; lia).
  rewrite Hneg. change (-1 <? 0) with true. cbv iota.
  unfold len in *. rewrite length_take, length_drop. lia.
Qed.

(** [xs[-k:]] holds [k] items when [k] is positive and the list has at
    least [k]. *)
Lemma length_slice_last xs (k : Z) :
  0 < k -> k <= len xs ->
  len (slice xs (Some (- k)) None) = k.
Proof.
  intros Hk Hlen. unfold slice, clamp.
  assert (Hneg : (- k <? 0) = true) by (apply Z.ltb_lt; lia).
  rewrite Hneg.
  unfold len in *. rewrite length_take, length_drop. lia.
Qed.

End Slices.

(** ** Insufficient history *)

Lemma signal_of_short_history {num : Type} `{!Arith num}
    (self : TradingSimulator num) (prices : list num) :
  len prices < long_ma self + 1 -> crossover_signal self prices = Ok HOLD.
Proof.
  intros Hshort. unfold crossover_signal.
  apply Z.ltb_lt in Hshort. now rewrite Hshort.
Qed.

Lemma evaluate_strategy_of_short_history {num : Type} `{!Arith num}
    (self : TradingSimulator num)
    (st : db num) (symbol : string) (now : Z) :
  len (_get_recent_prices st symbol (long_ma self + 1)) < long_ma self + 1 ->
  _evaluate_strategy self st symbol now = Ok no_effect.
Proof.
  intros Hshort. unfold _evaluate_strategy.
  now rewrite (signal_of_short_history self _ Hshort).
Qed.

(** C4. For every price sequence shorter than [long_ma + 1] the decision is
    HOLD, and a strategy evaluation that reads such a sequence returns
    normally without printing, committing or trading: the database is left
    as it was.  This holds in every arithmetic. *)
Theorem short_history_holds :
  forall {num : Type} `{!Arith num} (self : TradingSimulator num) (prices : list num),
    len prices < long_ma self + 1 ->
    crossover_signal self prices = Ok HOLD /\
    forall (st : db num) (symbol : string) (now : Z),
      _get_recent_prices st symbol (long_ma self + 1) = prices ->
      _evaluate_strategy self st symbol now = Ok no_effect /\
      state_after st no_effect = st.
Proof.
  intros num HA self prices Hshort.
  split; [now apply signal_of_short_history |].
  intros st symbol now Hread. split; [| reflexivity].
  apply evaluate_strategy_of_short_history. now rewrite Hread.
Qed.

Lemma short_history_holds_witness :
  crossover_signal default_simulator [10; 20; 30]%float = Ok HOLD /\
  _evaluate_strategy default_simulator sample_history "BTCUSDT" 5 = Ok no_effect /\
  state_after (num := float) sample_history no_effect = sample_history.
Proof.
  destruct (short_history_holds (num := float) default_simulator [10; 20; 30]%float)
    as [Hhold Hrun].
  - reflexivity.
  - split; [exact Hhold |]. apply Hrun. reflexivity.
Defined.

(** ** Crossover detection *)

Section Crossover.
Context {num : Type} `{!Arith num}.

Variable self : TradingSimulator num.
Variable prices : list num.

Hypothesis short_positive : 0 < short_ma self.
Hypothesis short_within_long : short_ma self <= long_ma self.
Hypothesis enough_history : long_ma self + 1 <= len prices.

(** Dividing the sum of a window by the configured length is taking its
    mean, as the window has that many prices. *)
Lemma mean_of_window (xs : list num) (k : Z) :
  0 < k -> len xs = k ->
  truediv_int (sum xs) k = Ok (sum xs / of_int k)%py /\
  mean xs = Ok (sum xs / of_int k)%py.
Proof.
  intros Hk Hlen. unfold mean. rewrite Hlen. unfold truediv_int.
  assert (Hnz : (k =? 0) = false) by (apply Z.eqb_neq; lia).
  now rewrite Hnz.
Qed.

Lemma mean_of_old_window (k : Z) :
  0 < k -> k <= long_ma self ->
  truediv_int (sum (old_window k prices)) k
    = Ok (sum (old_window k prices) / of_int k)%py /\
  mean (old_window k prices) = Ok (sum (old_window k prices) / of_int k)%py.
Proof.
  intros Hk Hle. apply mean_of_window; [assumption |].
  apply length_slice_before_last; lia.
Qed.

Lemma mean_of_new_window (k : Z) :
  0 < k -> k <= long_ma self ->
  truediv_int (sum (new_window k prices)) k
    = Ok (sum (new_window k prices) / of_int k)%py /\
  mean (new_window k prices) = Ok (sum (new_window k prices) / of_int k)%py.
Proof.
  intros Hk Hle. apply mean_of_window; [assumption |].
  apply length_slice_last; lia.
Qed.

(** With enough history the detector computes the four means and applies
    the two tests in order. *)
Lemma crossover_signal_unfolded :
  exists shortOld longOld shortNew longNew : num,
    mean (old_window (short_ma self) prices) = Ok shortOld /\
    mean (old_window (long_ma self) prices) = Ok longOld /\
    mean (new_window (short_ma self) prices) = Ok shortNew /\
    mean (new_window (long_ma self) prices) = Ok longNew /\
    crossover_signal self prices =
      Ok (if le shortOld longOld && lt longNew shortNew then BUY
          else if le longOld shortOld && lt shortNew longNew then SELL
          else HOLD).
Proof.
  destruct (mean_of_old_window (short_ma self)) as [Hso Hso']; [lia | lia |].
  destruct (mean_of_old_window (long_ma self)) as [Hlo Hlo']; [lia | lia |].
  destruct (mean_of_new_window (short_ma self)) as [Hsn Hsn']; [lia | lia |].
  destruct (mean_of_new_window (long_ma self)) as [Hln Hln']; [lia | lia |].
  do 4 eexists. repeat (split; [eassumption |]).
  unfold crossover_signal.
  assert (Hlen : (len prices <? long_ma self + 1) = false) by (apply Z.ltb_ge; lia).
  rewrite Hlen.
  unfold old_window, new_window in Hso, Hlo, Hsn, Hln.
  rewrite Hso, Hlo, Hsn, Hln. simpl.
  fold (old_window (short_ma self) prices) (old_window (long_ma self) prices)
       (new_window (short_ma self) prices) (new_window (long_ma self) prices).
  repeat match goal with |- context [if ?b then _ else _] => destruct b end;
    reflexivity.
Qed.

End Crossover.

(** C1. For every chronological price sequence of at least [long_ma + 1]
    prices (windows configured with [0 < short_ma <= long_ma]), let
    [shortOld], [longOld], [shortNew] and [longNew] be the means of
    [prices[-(short_ma+1):-1]], [prices[-(long_ma+1):-1]],
    [prices[-short_ma:]] and [prices[-long_ma:]], each computed as the code
    computes it: the sum, added up from left to right, over the length.
    The detector decides BUY exactly when [shortOld <= longOld] and
    [shortNew > longNew], SELL exactly when it did not decide BUY and
    [shortOld >= longOld] and [shortNew < longNew], and HOLD otherwise.
    When [shortOld] and [longOld] compare equal the test whose second
    condition holds wins, and when neither second condition holds the
    decision is HOLD.  The sums, the quotients and the comparisons are
    those of the arithmetic, so in binary64 the means are the rounded
    ones. *)
Theorem crossover_decision :
  forall {num : Type} `{!Arith num} `{!Lawful num}
         (self : TradingSimulator num) (prices : list num),
    0 < short_ma self ->
    short_ma self <= long_ma self ->
    long_ma self + 1 <= len prices ->
    exists shortOld longOld shortNew longNew : num,
      mean (old_window (short_ma self) prices) = Ok shortOld /\
      mean (old_window (long_ma self) prices) = Ok longOld /\
      mean (new_window (short_ma self) prices) = Ok shortNew /\
      mean (new_window (long_ma self) prices) = Ok longNew /\
      exists decision : signal,
        crossover_signal self prices = Ok decision /\
        (decision = BUY <->
           le shortOld longOld = true /\ lt longNew shortNew = true) /\
        (decision = SELL <->
           decision <> BUY /\
           le longOld shortOld = true /\ lt shortNew longNew = true) /\
        (decision = HOLD <->
           ~ (le shortOld longOld = true /\ lt longNew shortNew = true) /\
           ~ (le longOld shortOld = true /\ lt shortNew longNew = true)) /\
        (le shortOld longOld = true -> le longOld shortOld = true ->
           (lt longNew shortNew = true -> decision = BUY) /\
           (lt shortNew longNew = true -> decision = SELL)) /\
        (lt longNew shortNew = false -> lt shortNew longNew = false ->
           decision = HOLD).
Proof.
  intros num HA L self prices Hshort Hle Hlen.
  destruct (crossover_signal_unfolded self prices Hshort Hle Hlen)
    as (so & lo & sn & ln & Hso & Hlo & Hsn & Hln & Hsig).
  exists so, lo, sn, ln. repeat (split; [assumption |]).
  eexists. split; [exact Hsig |].
  pose proof (lt_asymmetric sn ln) as Hasym1.
  pose proof (lt_asymmetric ln sn) as Hasym2.
  destruct (le so lo); destruct (lt ln sn);
    destruct (le lo so); destruct (lt sn ln); simpl;
    try (specialize (Hasym1 eq_refl); discriminate Hasym1);
    intuition (try discriminate; try congruence).
Qed.

Lemma crossover_decision_witness :
  exists shortOld longOld shortNew longNew : float,
    mean (old_window 5 dip_and_recovery) = Ok shortOld /\
    mean (old_window 20 dip_and_recovery) = Ok longOld /\
    mean (new_window 5 dip_and_recovery) = Ok shortNew /\
    mean (new_window 20 dip_and_recovery) = Ok longNew /\
    exists decision : signal,
      crossover_signal default_simulator dip_and_recovery = Ok decision /\
      (decision = BUY <->
         le shortOld longOld = true /\ lt longNew shortNew = true) /\
      (decision = SELL <->
         decision <> BUY /\
         le longOld shortOld = true /\ lt shortNew longNew = true) /\
      (decision = HOLD <->
         ~ (le shortOld longOld = true /\ lt longNew shortNew = true) /\
         ~ (le longOld shortOld = true /\ lt shortNew longNew = true)) /\
      (le shortOld longOld = true -> le longOld shortOld = true ->
         (lt longNew shortNew = true -> decision = BUY) /\
         (lt shortNew longNew = true -> decision = SELL)) /\
      (lt longNew shortNew = false -> lt shortNew longNew = false ->
         decision = HOLD).
Proof.
  apply (crossover_decision (num := float) default_simulator dip_and_recovery).
  - reflexivity.
  - discriminate.
  - discriminate.
Defined.

(** The worked series: the old short mean 98 is below the old long mean
    99.5 and the new short mean 104 is above the new long mean 100.5, a
    golden cross.  The sums and quotients are exact in binary64. *)
Example dip_and_recovery_means :
  mean (num := float) (old_window 5 dip_and_recovery) = Ok 98%float /\
  mean (num := float) (old_window 20 dip_and_recovery) = Ok 99.5%float /\
  mean (num := float) (new_window 5 dip_and_recovery) = Ok 104%float /\
  mean (num := float) (new_window 20 dip_and_recovery) = Ok 100.5%float.
Proof. repeat split. Qed.

(** The worked series signals BUY; with a newest price of 95 in place of
    120 there is no crossover; a flat series does not signal; a drop after a
    flat series, where the old means are equal, is a death cross, and a rise
    after it a golden cross. *)
Example dip_and_recovery_buys :
  crossover_signal default_simulator dip_and_recovery = Ok BUY /\
  crossover_signal default_simulator (removelast dip_and_recovery ++ [95%float])
    = Ok HOLD /\
  crossover_signal default_simulator (repeat 100%float 21) = Ok HOLD /\
  crossover_signal default_simulator (repeat 100%float 20 ++ [90%float]) = Ok SELL /\
  crossover_signal default_simulator (repeat 100%float 20 ++ [110%float]) = Ok BUY.
Proof. repeat split; reflexivity. Qed.

(** The means are the rounded ones.  On 0.1 followed by three times 0.2,
    with windows of 2 and 3, the old long mean is 0.16666666666666666, below
    the old short mean 0.2, and the new long mean, a third of the sum
    0.6000000000000001, is 0.20000000000000004, above the new short mean
    0.2: the detector signals SELL, although the new means of the three
    equal prices are equal as rationals.  The same happens with the windows
    of [main] on 0.1 followed by twenty times 0.2. *)
Example rounded_means_decide :
  mean (num := float) (old_window 2 [0.1; 0.2; 0.2; 0.2]%float) = Ok 0.2%float /\
  mean (num := float) (old_window 3 [0.1; 0.2; 0.2; 0.2]%float)
    = Ok 0.16666666666666666%float /\
  mean (num := float) (new_window 2 [0.1; 0.2; 0.2; 0.2]%float) = Ok 0.2%float /\
  mean (num := float) (new_window 3 [0.1; 0.2; 0.2; 0.2]%float)
    = Ok 0.20000000000000004%float /\
  crossover_signal small_window_simulator [0.1; 0.2; 0.2; 0.2]%float = Ok SELL /\
  crossover_signal default_simulator (0.1 :: repeat 0.2 20)%float = Ok SELL.
Proof. repeat split; reflexivity. Qed.

(** What [_evaluate_strategy] does with the decision: a trade at the newest
    price on BUY or SELL, nothing on HOLD. *)
Lemma evaluate_strategy_follows_signal :
  forall {num : Type} `{!Arith num}
         (self : TradingSimulator num) (st : db num) (symbol : string) (now : Z)
         (decision : signal),
    let prices := _get_recent_prices st symbol (long_ma self + 1) in
    crossover_signal self prices = Ok decision ->
    _evaluate_strategy self st symbol now =
      match decision with
      | BUY => current_price ← last_item prices;
               _execute_trade self st symbol "BUY" current_price now
      | SELL => current_price ← last_item prices;
                _execute_trade self st symbol "SELL" current_price now
      | HOLD => Ok no_effect
      end.
Proof.
  intros num HA self st symbol now decision prices Hsig.
  unfold _evaluate_strategy. fold prices. rewrite Hsig. reflexivity.
Qed.

(** ** Order of the writes of a trade *)

(** C5, as the code has it.  A trade execution either raises before it
    writes (a BUY at a price that compares equal to 0), or commits nothing,
    or makes three commits one after the other: the cash balance, then the
    holding, then the trade record.  The database after the first commit has
    the new cash balance with the old holdings; from the second commit on
    the cash balance and the holdings are both the new ones.  This holds in
    every arithmetic. *)
Theorem trade_commits_cash_then_holding :
  forall {num : Type} `{!Arith num}
         (self : TradingSimulator num) (st : db num) (symbol action : string)
         (price : num) (now : Z),
    (_execute_trade self st symbol action price now = Raise ZeroDivisionError /\
     action = "BUY"%string /\ is_zero price = true) \/
    exists e : effects num,
      _execute_trade self st symbol action price now = Ok e /\
      let st' := state_after st e in
      ((commits e = [] /\ st' = st) \/
       exists s1 s2 : db num,
         commits e = [s1; s2; st'] /\
         (cash s1 = cash st' /\ portfolio s1 = portfolio st /\ trades s1 = trades st) /\
         (cash s2 = cash st' /\ portfolio s2 = portfolio st' /\ trades s2 = trades st) /\
         (exists t : trade num, trades st' = trades st ++ [t]) /\
         prices st' = prices st).
Proof.
  intros num HA self st symbol action price now.
  unfold _execute_trade.
  destruct (String.eqb action "BUY") eqn:Hbuy.
  - destruct (lt _ _).
    + right. eexists. split; [reflexivity |]. left. split; reflexivity.
    + unfold truediv. destruct (is_zero price) eqn:Hz.
      * left. apply String.eqb_eq in Hbuy. auto.
      * right. eexists. split; [reflexivity |]. right.
        do 2 eexists. split; [reflexivity |].
        unfold state_after. simpl. repeat split. eexists. reflexivity.
  - right. destruct (String.eqb action "SELL" && lt zero _).
    + eexists. split; [reflexivity |]. right.
      do 2 eexists. split; [reflexivity |].
      unfold state_after. simpl. repeat split. eexists. reflexivity.
    + eexists. split; [reflexivity |]. left. split; reflexivity.
Qed.

(** C5, as the specification words it, does not hold: the first commit of a
    BUY of 500 on a fresh account of 10000 has the cash at 9500 and no
    holding yet, so it is in step neither with the account before the call
    nor with the account after it. *)
Lemma buy_commits_cash_before_holding :
  exists e : effects float,
    _execute_trade default_simulator fresh_account "BTCUSDT" "BUY" 100%float 0 = Ok e /\
    ~ atomic_account_update fresh_account e.
Proof.
  eexists. split; [reflexivity |].
  intros Hatomic.
  apply Forall_cons_1 in Hatomic as [[[Hcash _] | [_ Hportfolio]] _].
  - apply (f_equal (fun c : option float =>
                      match c with
                      | Some x => PrimFloat.eqb x 10000
                      | None => false
                      end)) in Hcash.
    vm_compute in Hcash. discriminate Hcash.
  - apply (f_equal (fun m : gmap string float => m !! "BTCUSDT"%string)) in Hportfolio.
    vm_compute in Hportfolio. discriminate Hportfolio.
Qed.


(** ** The account invariant *)

Section Invariant.

Variable self : TradingSimulator Q.

Hypothesis fraction_at_most_one : (position_size_fraction self <= 1)%Q.






End Invariant.



(** The run of the sample orders: 500 spent on the first symbol, 475 on the
    second, the first position sold for 600; one holding is left. *)
Example sample_orders_run :
  exists st : db Q,
    execute_all exact_simulator fresh_account sample_orders = Ok st /\
    (_get_cash_balance st == 9625)%Q /\
    portfolio st !! "BTCUSDT"%string = None /\
    (_get_portfolio_quantity st "ETHUSDT" == 19 # 2)%Q /\
    length (trades st) = 3%nat.
Proof.
  eexists. split; [vm_compute; reflexivity |]. repeat split.
Qed.

(** The same run in binary64, where none of its figures is rounded. *)
Example sample_orders_run_in_binary64 :
  exists st : db float,
    execute_all default_simulator fresh_account sample_orders = Ok st /\
    _get_cash_balance st = 9625%float /\
    portfolio st !! "BTCUSDT"%string = None /\
    _get_portfolio_quantity st "ETHUSDT" = 9.5%float /\
    length (trades st) = 3%nat.
Proof.
  eexists. split; [vm_compute; reflexivity |]. repeat split.
Qed.

(** ** Price history *)

Section PriceHistory.
Context {num : Type} `{!Arith num}.

Implicit Types (st : db num) (symbol : string) (row : Z * num).

(** The rows selected for a symbol are its stored observations. *)
Lemma rows_of_symbol_spec st symbol row :
  row ∈ rows_of_symbol st symbol <-> observed st symbol row.
Proof.
  unfold rows_of_symbol, observed. rewrite list_elem_of_omap. split.
  - intros ([[t s] p] & Hin & Hsel). simpl in Hsel.
    case_decide as Hs; [| discriminate]. injection Hsel as <-. subst s.
    now apply elem_of_map_to_list in Hin.
  - destruct row as [t p]. simpl. intros Hlook.
    exists (t, symbol, p). split; [now apply elem_of_map_to_list |].
    simpl. now rewrite decide_True.
Qed.

(** A symbol has one observation per timestamp. *)
Lemma rows_of_symbol_timestamps st symbol :
  NoDup (rows_of_symbol st symbol).*1.
Proof.
  unfold rows_of_symbol.
  pose proof (NoDup_fst_map_to_list (prices st)) as Hkeys.
  induction (map_to_list (prices st)) as [| [[t s] p] l IH]; simpl.
  - constructor.
  - apply NoDup_cons in Hkeys as [Hfresh Hkeys]. simpl in Hfresh.
    case_decide as Hs; [| now apply IH].
    simpl. apply NoDup_cons. split; [| now apply IH].
    intros Hdup. apply Hfresh.
    apply list_elem_of_fmap in Hdup as ([t' p'] & Ht & Hin). simpl in Ht. subst t'.
    apply list_elem_of_omap in Hin as ([[t' s'] p''] & Hin & Hsel). simpl in Hsel.
    case_decide as Hs'; [| discriminate]. injection Hsel as -> ->. subst s s'.
    apply list_elem_of_fmap. exists (t, symbol, p'). split; [reflexivity | assumption].
Qed.

Lemma limit_of_count {T : Type} (count : nat) (rows : list T) :
  sql_limit (Z.of_nat count) rows = take count rows.
Proof.
  unfold sql_limit.
  assert (Hge : (Z.of_nat count <? 0) = false) by (apply Z.ltb_ge; lia).
  now rewrite Hge, Nat2Z.id.
Qed.

Lemma length_sql_limit {T : Type} (n : Z) (rows rows' : list T) :
  length rows = length rows' -> length (sql_limit n rows) = length (sql_limit n rows').
Proof.
  intros Hlen. unfold sql_limit. destruct (n <? 0); [assumption |].
  rewrite !length_take. lia.
Qed.

Lemma length_recent_prices st symbol (periods : Z) :
  length (_get_recent_prices st symbol periods)
    = length (sql_limit periods (rows_of_symbol st symbol)).
Proof.
  unfold _get_recent_prices, recent_rows.
  rewrite length_map, length_reverse.
  apply length_sql_limit, Permutation_length, merge_sort_Permutation.
Qed.

(** Writing a key again keeps the number of rows of every symbol. *)
Lemma rows_of_symbol_overwrite st (timestamp : Z) (written symbol : string)
    (price1 price2 : num) :
  length (rows_of_symbol
            (_store_price (_store_price st timestamp written price1)
                          timestamp written price2) symbol)
    = length (rows_of_symbol (_store_price st timestamp written price1) symbol).
Proof.
  unfold rows_of_symbol, _store_price. simpl.
  rewrite insert_insert_eq.
  rewrite <- (insert_delete_eq (prices st) _ price2).
  rewrite <- (insert_delete_eq (prices st) _ price1).
  rewrite !(Permutation_length
              (omap_Permutation _ _ _
                 (map_to_list_insert _ _ _ (lookup_delete_eq _ _)))).
  simpl. now case_decide.
Qed.

(** A symbol with fewer than [long_ma + 1] stored observations is left
    alone by the strategy. *)
Lemma evaluate_strategy_with_few_observations (self : TradingSimulator num) st
    symbol (now : Z) :
  len (rows_of_symbol st symbol) < long_ma self + 1 ->
  _evaluate_strategy self st symbol now = Ok no_effect.
Proof.
  intros Hfew. apply evaluate_strategy_of_short_history.
  unfold len in *. rewrite length_recent_prices. unfold sql_limit.
  destruct (long_ma self + 1 <? 0) eqn:Hneg; [assumption |].
  rewrite length_take. lia.
Qed.

End PriceHistory.

(** C8. Recording a price is an upsert on the key (timestamp, symbol): a
    second write to the same key cannot fail, replaces the stored price, adds
    no row, and leaves the database as a single write of the last price
    would; writing the same observation again changes nothing.  So, for
    every symbol and count, the recent prices are as many after the second
    write as after the first.  This holds in every arithmetic. *)
Theorem store_price_is_upsert :
  forall {num : Type} `{!Arith num} (st : db num) (timestamp : Z) (symbol : string)
         (price1 price2 : num),
    let once := _store_price st timestamp symbol price1 in
    let twice := _store_price once timestamp symbol price2 in
    prices twice !! (timestamp, symbol) = Some price2 /\
    size (prices twice) = size (prices once) /\
    twice = _store_price st timestamp symbol price2 /\
    _store_price once timestamp symbol price1 = once /\
    forall (queried : string) (count : Z),
      length (_get_recent_prices twice queried count)
        = length (_get_recent_prices once queried count).
Proof.
  intros num HA st timestamp symbol price1 price2 once twice.
  split; [| split; [| split; [| split]]].
  - apply lookup_insert_eq.
  - unfold twice, once, _store_price. simpl.
    apply map_size_insert_Some. rewrite lookup_insert_eq. eauto.
  - unfold twice, once, _store_price. simpl. now rewrite insert_insert_eq.
  - unfold once, _store_price. simpl. now rewrite insert_insert_eq.
  - intros queried count. rewrite !length_recent_prices.
    apply length_sql_limit, rows_of_symbol_overwrite.
Qed.

(** Rewriting the middle observation of the sample history: the three
    prices of the symbol stay three, and the new price is the one read. *)
Example sample_history_overwrite :
  _get_recent_prices (num := float) sample_history "BTCUSDT" 5
    = [10; 20; 30]%float /\
  _get_recent_prices (num := float)
    (_store_price sample_history 2 "BTCUSDT" 77%float) "BTCUSDT" 5
    = [10; 77; 30]%float.
Proof. repeat split; reflexivity. Qed.

(** ** Order of the recent prices *)

Global Instance later_first_total {num : Type} : Total (@later_first num).
Proof. intros r1 r2. unfold later_first. lia. Qed.

Global Instance later_first_transitive {num : Type} : Transitive (@later_first num).
Proof. intros r1 r2 r3. unfold later_first. lia. Qed.

Section RecentOrder.
Context {num : Type} `{!Arith num}.

Implicit Types (rows : list (Z * num)) (row : Z * num).

(** Rows sorted latest first, with one row per timestamp, go strictly down
    in time. *)
Lemma sorted_rows_strict rows :
  StronglySorted later_first rows -> NoDup rows.*1 ->
  StronglySorted (fun r1 r2 : Z * num => r2.1 < r1.1) rows.
Proof.
  induction 1 as [| r rows Hsorted IH Hhead]; intros Hnodup; [constructor |].
  simpl in Hnodup. apply NoDup_cons in Hnodup as [Hfresh Hnodup].
  constructor; [now apply IH |].
  rewrite Forall_forall in Hhead |- *. intros r' Hin.
  specialize (Hhead r' Hin). unfold later_first in Hhead.
  destruct (decide (r'.1 = r.1)) as [Heq |]; [| lia].
  exfalso. apply Hfresh. rewrite <- Heq. now apply list_elem_of_fmap_2.
Qed.

(** Reading a strictly sorted list backwards turns the order around. *)
Lemma reverse_sorted {T : Type} (R : relation T) (l : list T) :
  StronglySorted R l -> StronglySorted (flip R) (reverse l).
Proof.
  induction 1 as [| x l Hsorted IH Hhead]; [constructor |].
  rewrite reverse_cons. apply StronglySorted_app. repeat split.
  - intros x1 x2 Hx1 Hx2. rewrite elem_of_reverse in Hx1.
    apply list_elem_of_singleton in Hx2 as ->.
    rewrite Forall_forall in Hhead. now apply Hhead.
  - assumption.
  - repeat constructor.
Qed.

End RecentOrder.

(** C9. For every symbol and every count, the recent prices are returned
    without error and are the prices of stored observations of the symbol,
    oldest first, one per timestamp; they are [count] observations, or all
    of them when fewer are stored; every stored observation that is left out
    is older than each one returned.  This holds in every arithmetic. *)
Theorem recent_prices_latest_in_order :
  forall {num : Type} `{!Arith num} (st : db num) (symbol : string) (count : nat),
    exists rows : list (Z * num),
      _get_recent_prices st symbol (Z.of_nat count) = map snd rows /\
      Forall (observed st symbol) rows /\
      StronglySorted (fun r1 r2 : Z * num => r1.1 < r2.1) rows /\
      length rows = Nat.min count (length (rows_of_symbol st symbol)) /\
      (forall row : Z * num,
          observed st symbol row -> row ∉ rows ->
          Forall (fun r : Z * num => row.1 < r.1) rows) /\
      ((length (rows_of_symbol st symbol) <= count)%nat ->
       forall row : Z * num, observed st symbol row -> row ∈ rows).
Proof.
  intros num HA st symbol count.
  set (sorted := merge_sort later_first (rows_of_symbol st symbol)).
  assert (Hperm : sorted ≡ₚ rows_of_symbol st symbol)
    by apply merge_sort_Permutation.
  assert (Hstrict : StronglySorted (fun r1 r2 : Z * num => r2.1 < r1.1) sorted).
  { apply sorted_rows_strict.
    - apply StronglySorted_merge_sort; apply _.
    - rewrite Hperm. apply rows_of_symbol_timestamps. }
  exists (reverse (take count sorted)).
  rewrite <- (take_drop count sorted) in Hstrict.
  apply StronglySorted_app in Hstrict as (Hcut & Hkept & _).
  split; [| split; [| split; [| split; [| split]]]].
  - unfold _get_recent_prices, recent_rows. fold sorted.
    now rewrite limit_of_count.
  - rewrite Forall_forall. intros row Hin.
    rewrite elem_of_reverse in Hin. apply elem_of_take in Hin as (i & Hi & _).
    apply rows_of_symbol_spec. rewrite <- Hperm.
    apply list_elem_of_lookup. eauto.
  - apply (reverse_sorted _ _ Hkept).
  - rewrite length_reverse, length_take. now rewrite Hperm.
  - intros row Hobs Hout. rewrite Forall_forall. intros r Hr.
    rewrite elem_of_reverse in Hr. apply Hcut; [assumption |].
    apply rows_of_symbol_spec in Hobs. rewrite <- Hperm in Hobs.
    rewrite <- (take_drop count sorted) in Hobs.
    apply elem_of_app in Hobs as [Hin | Hin]; [| assumption].
    exfalso. apply Hout. now rewrite elem_of_reverse.
  - intros Hfew row Hobs. rewrite elem_of_reverse.
    rewrite take_ge by (now rewrite Hperm).
    rewrite Hperm. now apply rows_of_symbol_spec.
Qed.

(** The two most recent of the three sample observations, oldest first; a
    count larger than the history gives all three; and SQLite's reading of a
    negative limit as no limit at all. *)
Example sample_history_recent :
  _get_recent_prices (num := float) sample_history "BTCUSDT" 2 = [20; 30]%float /\
  _get_recent_prices (num := float) sample_history "BTCUSDT" 21
    = [10; 20; 30]%float /\
  _get_recent_prices (num := float) sample_history "ETHUSDT" 21 = [99]%float /\
  _get_recent_prices (num := float) sample_history "XRPUSDT" 21 = [] /\
  _get_recent_prices (num := float) sample_history "BTCUSDT" (-1)
    = [10; 20; 30]%float.
Proof. repeat split; reflexivity. Qed.


(** * Further properties of the code *)

(** ** Start-up and the account tables *)

(** X1. Running [_init_db] on a database that already has its cash row
    changes nothing, whatever starting balance is passed: the balance read
    afterwards is the stored one, and only on a database without the row is
    it the starting balance.  Running it twice is running it once, and the
    price history, the ledger and the holdings are never touched. *)
Theorem init_db_keeps_existing_account :
  forall {num : Type} `{!Arith num}
         (st : db num) (starting_balance other_balance : num),
    _get_cash_balance (_init_db st starting_balance)
      = match cash st with
        | Some balance => balance
        | None => starting_balance
        end /\
    _init_db (_init_db st starting_balance) other_balance
      = _init_db st starting_balance /\
    (is_Some (cash st) -> _init_db st starting_balance = st) /\
    prices (_init_db st starting_balance) = prices st /\
    trades (_init_db st starting_balance) = trades st /\
    portfolio (_init_db st starting_balance) = portfolio st.
Proof.
  intros num HA st starting_balance other_balance.
  unfold _init_db, _get_cash_balance.
  destruct (cash st) as [balance |] eqn:Hrow; simpl.
  - rewrite Hrow. repeat split.
  - repeat split. intros [balance Hsome]. discriminate Hsome.
Qed.

(** X2. On a database that [_init_db] has been run on, a cash balance that
    is written is the one read back.  On a database without the cash row the
    write changes nothing and the balance still reads 0. *)
Theorem cash_write_then_read :
  forall {num : Type} `{!Arith num} (st : db num) (starting_balance new_balance : num),
    _get_cash_balance
      (_update_cash_balance (_init_db st starting_balance) new_balance)
      = new_balance /\
    (cash st = None ->
     _update_cash_balance st new_balance = st /\
     _get_cash_balance (_update_cash_balance st new_balance) = zero).
Proof.
  intros num HA st starting_balance new_balance. split.
  - destruct (init_db_cash_row st starting_balance) as [balance Hrow].
    unfold _get_cash_balance, _update_cash_balance. simpl. now rewrite Hrow.
  - intros Hnone. unfold _get_cash_balance, _update_cash_balance.
    destruct st as [ps ts pf c]. simpl in *. subst c. split; reflexivity.
Qed.

(** X3. Writing a holding and reading it back gives the quantity written,
    or 0 for a quantity that compares equal to 0.  Such a quantity removes
    the row of the symbol, any other quantity becomes its row; the rows of
    the other symbols stay as they are, and of two writes for one symbol
    only the last one counts. *)
Theorem portfolio_write_then_read :
  forall {num : Type} `{!Arith num}
         (st : db num) (symbol : string) (quantity earlier : num),
    let st' := _update_portfolio_quantity st symbol quantity in
    _get_portfolio_quantity st' symbol = (if is_zero quantity then zero else quantity) /\
    portfolio st' !! symbol = (if is_zero quantity then None else Some quantity) /\
    (forall other : string,
        other <> symbol ->
        _get_portfolio_quantity st' other = _get_portfolio_quantity st other) /\
    _update_portfolio_quantity
      (_update_portfolio_quantity st symbol earlier) symbol quantity = st'.
Proof.
  intros num HA st symbol quantity earlier st'.
  split; [apply quantity_after_update |].
  split; [| split].
  - unfold st', _update_portfolio_quantity. simpl.
    destruct (is_zero quantity); [apply lookup_delete_eq | apply lookup_insert_eq].
  - intros other Hne. unfold _get_portfolio_quantity.
    unfold st'. now rewrite other_row_after_update.
  - unfold st', _update_portfolio_quantity. simpl. f_equal.
    destruct (is_zero quantity), (is_zero earlier).
    + apply map_eq. intros k. rewrite !lookup_delete. now repeat case_decide.
    + now rewrite delete_insert_eq.
    + now rewrite insert_delete_eq.
    + now rewrite insert_insert_eq.
Qed.

(** In binary64 the quantity that compares equal to 0 may be the negative
    zero: writing it removes the row, and the holding reads the positive
    zero. *)
Example negative_zero_removes_the_row :
  portfolio (_update_portfolio_quantity account_holding_five "BTCUSDT" (-0)%float)
    = ∅ /\
  Prim2SF (_get_portfolio_quantity
             (_update_portfolio_quantity account_holding_five "BTCUSDT" (-0)%float)
             "BTCUSDT") = S754_zero false.
Proof. split; reflexivity. Qed.

(** ** More on the price history *)

Section SortedRows.
Context {num : Type} `{!Arith num}.

Implicit Types (rows : list (Z * num)) (row : Z * num).

Lemma row_of_timestamp rows row1 row2 :
  NoDup rows.*1 -> row1 ∈ rows -> row2 ∈ rows -> row1.1 = row2.1 -> row1 = row2.
Proof.
  induction rows as [| r rows IH]; intros Hnodup H1 H2 Heq.
  - inversion H1.
  - simpl in Hnodup. apply NoDup_cons in Hnodup as [Hfresh Hnodup].
    apply elem_of_cons in H1 as [-> | H1], H2 as [-> | H2].
    + reflexivity.
    + exfalso. apply Hfresh. rewrite Heq. now apply list_elem_of_fmap_2.
    + exfalso. apply Hfresh. rewrite <- Heq. now apply list_elem_of_fmap_2.
    + now apply IH.
Qed.

(** The order of the result of the query does not depend on the order in
    which the table holds its rows. *)
Lemma sorted_rows_determined rows1 rows2 :
  rows1 ≡ₚ rows2 -> NoDup rows1.*1 ->
  merge_sort later_first rows1 = merge_sort later_first rows2.
Proof.
  intros Hperm Hnodup.
  apply (StronglySorted_unique_strong later_first).
  - intros x1 x2 Hx1 Hx2 H12 H21. unfold later_first in *.
    apply (row_of_timestamp rows1); [assumption | | | lia].
    + now rewrite merge_sort_Permutation in Hx1.
    + rewrite merge_sort_Permutation in Hx2. now rewrite Hperm.
  - apply StronglySorted_merge_sort; apply _.
  - apply StronglySorted_merge_sort; apply _.
  - now rewrite !merge_sort_Permutation.
Qed.

Lemma rows_of_symbol_NoDup (st : db num) (symbol : string) :
  NoDup (rows_of_symbol st symbol).
Proof. apply (NoDup_fmap_1 fst), rows_of_symbol_timestamps. Qed.

(** The first of the sorted rows is the one with the latest timestamp. *)
Lemma head_of_sorted_rows rows row :
  NoDup rows.*1 -> row ∈ rows ->
  (forall r : Z * num, r ∈ rows -> r.1 <= row.1) ->
  head (merge_sort later_first rows) = Some row.
Proof.
  intros Hnodup Hin Hmax.
  pose proof (merge_sort_Permutation later_first rows) as Hperm.
  pose proof (StronglySorted_merge_sort later_first rows) as Hsorted.
  destruct (merge_sort later_first rows) as [| r sorted] eqn:Hsort.
  - rewrite <- Hperm in Hin. inversion Hin.
  - simpl. f_equal.
    apply StronglySorted_cons in Hsorted as [Hhead _].
    rewrite Forall_forall in Hhead.
    assert (Hr : r ∈ rows) by (rewrite <- Hperm; left).
    apply (row_of_timestamp rows); [assumption .. |].
    apply Z.le_antisymm; [now apply Hmax |].
    rewrite <- Hperm in Hin.
    apply elem_of_cons in Hin as [-> | Hin]; [lia |].
    apply (Hhead row Hin).
Qed.

Lemma observed_after_store (st : db num) (timestamp : Z) (written symbol : string)
    (price : num) row :
  observed (_store_price st timestamp written price) symbol row <->
  (row = (timestamp, price) /\ written = symbol) \/
  ((row.1, symbol) <> (timestamp, written) /\ observed st symbol row).
Proof.
  unfold observed, _store_price. simpl. rewrite lookup_insert.
  destruct row as [t p]. simpl. case_decide as Hkey.
  - injection Hkey as -> ->. split.
    + intros [= ->]. now left.
    + intros [[[= ->] _] | [Hne _]]; [reflexivity | congruence].
  - split.
    + intros Hobs. right. split; [congruence | assumption].
    + intros [[[= -> ->] ->] | [_ Hobs]]; [congruence | assumption].
Qed.

(** The price stored last in time is the last of the recent prices. *)
Lemma newest_after_store (st : db num) (timestamp : Z) (symbol : string)
    (price : num) (periods : Z) :
  (forall row : Z * num, observed st symbol row -> row.1 <= timestamp) ->
  periods <> 0 ->
  last (_get_recent_prices (_store_price st timestamp symbol price) symbol periods)
    = Some price.
Proof.
  intros Hlatest Hcount.
  set (st' := _store_price st timestamp symbol price).
  assert (Hhead : head (merge_sort later_first (rows_of_symbol st' symbol))
                  = Some (timestamp, price)).
  { apply head_of_sorted_rows.
    - apply rows_of_symbol_timestamps.
    - apply rows_of_symbol_spec, observed_after_store. now left.
    - intros r Hr. apply rows_of_symbol_spec, observed_after_store in Hr.
      destruct Hr as [[-> _] | [_ Hobs]]; [reflexivity | now apply Hlatest]. }
  unfold _get_recent_prices, recent_rows. fold st'.
  change (map snd) with (fmap (M := list) (@snd Z num)).
  rewrite fmap_last, last_reverse.
  destruct (merge_sort later_first (rows_of_symbol st' symbol)) as [| r sorted];
    [discriminate |].
  injection Hhead as ->. unfold sql_limit.
  destruct (periods <? 0) eqn:Hneg; [reflexivity |].
  apply Z.ltb_ge in Hneg.
  destruct (Z.to_nat periods) eqn:Hn; [lia | reflexivity].
Qed.

(** The observations of a series stored at consecutive timestamps are not
    later than its end. *)
Lemma store_series_latest (series : list num) :
  forall (st : db num) (symbol : string) (start bound : Z),
    start + len series <= bound + 1 ->
    (forall row : Z * num, observed st symbol row -> row.1 <= bound) ->
    forall row : Z * num,
      observed (store_series st symbol start series) symbol row -> row.1 <= bound.
Proof.
  unfold len. induction series as [| price rest IH];
    intros st symbol start bound Hend Hold row Hobs; simpl in *.
  - now apply Hold.
  - apply (IH (_store_price st start symbol price) symbol (start + 1) bound);
      [lia | | assumption].
    intros r Hr. apply observed_after_store in Hr as [[-> _] | [_ Hr]];
      [simpl; lia | now apply Hold].
Qed.

End SortedRows.

(** X4. Storing a price for one symbol leaves the recent prices of every
    other symbol as they were, for every count. *)
Theorem store_price_other_symbol :
  forall {num : Type} `{!Arith num}
         (st : db num) (timestamp : Z) (written symbol : string)
         (price : num) (periods : Z),
    written <> symbol ->
    _get_recent_prices (_store_price st timestamp written price) symbol periods
      = _get_recent_prices st symbol periods.
Proof.
  intros num HA st timestamp written symbol price periods Hne.
  unfold _get_recent_prices, recent_rows. do 3 f_equal.
  apply sorted_rows_determined; [| apply rows_of_symbol_timestamps].
  apply NoDup_Permutation; [apply rows_of_symbol_NoDup .. |].
  intros row. rewrite !rows_of_symbol_spec, observed_after_store.
  split.
  - intros [[_ Heq] | [_ Hobs]]; [contradiction | assumption].
  - intros Hobs. right. split; [congruence | assumption].
Qed.

Lemma store_price_other_symbol_witness :
  _get_recent_prices (_store_price sample_history 4 "ETHUSDT" 101%float) "BTCUSDT" 21
    = _get_recent_prices sample_history "BTCUSDT" 21.
Proof.
  apply store_price_other_symbol. discriminate.
Defined.

(** X5. After a price is stored at a timestamp that is not older than any
    observation the symbol has, it is the newest of the recent prices, that
    is their last element, for every count other than 0. *)
Theorem stored_price_is_newest :
  forall {num : Type} `{!Arith num}
         (st : db num) (timestamp : Z) (symbol : string) (price : num)
         (periods : Z),
    (forall row : Z * num, observed st symbol row -> row.1 <= timestamp) ->
    periods <> 0 ->
    last (_get_recent_prices (_store_price st timestamp symbol price) symbol periods)
      = Some price.
Proof.
  intros num HA st timestamp symbol price periods. apply newest_after_store.
Qed.

Lemma sample_history_latest (row : Z * float) :
  observed sample_history "BTCUSDT" row -> row.1 <= 4.
Proof.
  unfold sample_history. intros Hobs.
  repeat (apply observed_after_store in Hobs as [[-> _] | [_ Hobs]];
          [simpl; lia |]).
  unfold observed in Hobs. simpl in Hobs.
  rewrite lookup_empty in Hobs. discriminate.
Qed.

Lemma stored_price_is_newest_witness :
  last (_get_recent_prices (_store_price sample_history 4 "BTCUSDT" 40%float)
          "BTCUSDT" 21)
    = Some 40%float.
Proof.
  apply (stored_price_is_newest (num := float)); [| discriminate].
  exact sample_history_latest.
Defined.

(** X6. Asking for more recent prices only adds older prices in front: for
    counts [0 <= fewer <= more], and for any [fewer >= 0] when [more] is
    negative, the prices returned for [fewer] are the tail end of those
    returned for [more].  A count of 0 gives no price at all. *)
Theorem recent_prices_grow_at_the_front :
  forall {num : Type} `{!Arith num} (st : db num) (symbol : string) (fewer more : Z),
    0 <= fewer ->
    fewer <= more \/ more < 0 ->
    _get_recent_prices st symbol 0 = [] /\
    _get_recent_prices st symbol fewer `suffix_of` _get_recent_prices st symbol more.
Proof.
  intros num HA st symbol fewer more Hfewer Hmore.
  split; [reflexivity |].
  unfold _get_recent_prices, recent_rows.
  set (sorted := merge_sort later_first (rows_of_symbol st symbol)).
  assert (Hprefix : sql_limit fewer sorted `prefix_of` sql_limit more sorted).
  { unfold sql_limit.
    assert (Hpos : (fewer <? 0) = false) by (apply Z.ltb_ge; lia).
    rewrite Hpos.
    destruct (more <? 0) eqn:Hneg; [apply prefix_take |].
    apply Z.ltb_ge in Hneg.
    replace (Z.to_nat fewer) with (Z.to_nat fewer `min` Z.to_nat more)%nat by lia.
    rewrite <- take_take. apply prefix_take. }
  destruct Hprefix as [older Hsplit]. rewrite Hsplit.
  rewrite reverse_app. change (map snd) with (fmap (M := list) (@snd Z num)).
  rewrite fmap_app. now apply suffix_app_r.
Qed.

Lemma recent_prices_grow_at_the_front_witness :
  _get_recent_prices (num := float) sample_history "BTCUSDT" 0 = [] /\
  _get_recent_prices (num := float) sample_history "BTCUSDT" 2
    `suffix_of` _get_recent_prices sample_history "BTCUSDT" 3.
Proof.
  apply recent_prices_grow_at_the_front; [lia | left; lia].
Defined.

(** X7. A negative count is no limit: the prices returned are the whole
    history of the symbol, the same as for any count that is at least the
    number of observations stored for it. *)
Theorem negative_count_is_no_limit :
  forall {num : Type} `{!Arith num}
         (st : db num) (symbol : string) (periods enough : Z),
    periods < 0 ->
    len (rows_of_symbol st symbol) <= enough ->
    _get_recent_prices st symbol periods = _get_recent_prices st symbol enough /\
    len (_get_recent_prices st symbol periods) = len (rows_of_symbol st symbol).
Proof.
  intros num HA st symbol periods enough Hneg Henough.
  assert (Hall : recent_rows st symbol periods
                 = merge_sort later_first (rows_of_symbol st symbol)).
  { unfold recent_rows, sql_limit. apply Z.ltb_lt in Hneg. now rewrite Hneg. }
  split.
  - unfold _get_recent_prices. rewrite Hall. do 2 f_equal.
    unfold recent_rows, sql_limit, len in *.
    assert (Hpos : (enough <? 0) = false) by (apply Z.ltb_ge; lia).
    rewrite Hpos. symmetry. apply take_ge.
    rewrite (Permutation_length (merge_sort_Permutation _ _)). lia.
  - unfold len, _get_recent_prices. rewrite Hall.
    rewrite length_map, length_reverse.
    now rewrite (Permutation_length (merge_sort_Permutation _ _)).
Qed.

Lemma negative_count_is_no_limit_witness :
  _get_recent_prices (num := float) sample_history "BTCUSDT" (-1)
    = _get_recent_prices sample_history "BTCUSDT" 21 /\
  len (_get_recent_prices (num := float) sample_history "BTCUSDT" (-1))
    = len (rows_of_symbol (num := float) sample_history "BTCUSDT").
Proof.
  apply negative_count_is_no_limit; [lia | vm_compute; discriminate].
Defined.

(** ** More on trade execution *)

Section Execution.
Context {num : Type} `{!Arith num}.

(** The three ways in which [_execute_trade] returns: without a write, after
    a BUY, after a SELL. *)
Lemma execute_trade_cases (self : TradingSimulator num) (st : db num)
    (symbol action : string) (price : num) (now : Z) (e : effects num) :
  _execute_trade self st symbol action price now = Ok e ->
  let c := _get_cash_balance st in
  let owned := _get_portfolio_quantity st symbol in
  let spend := (c * position_size_fraction self)%py in
  (commits e = [] /\ state_after st e = st) \/
  (action = "BUY"%string /\ is_zero price = false /\ lt spend min_trade = false /\
   state_after st e =
     _log_trade
       (_update_portfolio_quantity (_update_cash_balance st (c - spend)%py)
          symbol (owned + spend / price)%py)
       now symbol "BUY" price (spend / price)%py (c - spend)%py) \/
  (action = "SELL"%string /\ lt zero owned = true /\
   state_after st e =
     _log_trade
       (_update_portfolio_quantity (_update_cash_balance st (c + owned * price)%py)
          symbol zero)
       now symbol "SELL" price (- owned)%py (c + owned * price)%py).
Proof.
  unfold _execute_trade. intros Hrun. cbv zeta.
  destruct (String.eqb action "BUY") eqn:Hbuy.
  - apply String.eqb_eq in Hbuy. subst action.
    destruct (lt _ _) eqn:Hmin.
    + injection Hrun as <-. left. split; reflexivity.
    + unfold truediv in Hrun.
      destruct (is_zero price) eqn:Hz; [discriminate |].
      injection Hrun as <-.
      right. left. repeat split; assumption.
  - destruct (String.eqb action "SELL") eqn:Hsell; simpl in Hrun.
    + apply String.eqb_eq in Hsell. subst action.
      destruct (lt zero _) eqn:Hpos; injection Hrun as <-.
      * right. right. repeat split; assumption.
      * left. split; reflexivity.
    + injection Hrun as <-. left. split; reflexivity.
Qed.

(** At a price that does not compare equal to 0 the call returns. *)
Lemma execute_trade_returns (self : TradingSimulator num) (st : db num)
    (symbol action : string) (price : num) (now : Z) :
  is_zero price = false ->
  exists e : effects num, _execute_trade self st symbol action price now = Ok e.
Proof.
  intros Hprice. unfold _execute_trade.
  rewrite (truediv_nonzero _ price Hprice).
  destruct (String.eqb action "BUY"); [destruct (lt _ _) |
    destruct (String.eqb action "SELL" && lt zero _)]; eexists; reflexivity.
Qed.

Lemma execute_trade_exception (self : TradingSimulator num) (st : db num)
    (symbol action : string) (price : num) (now : Z) (exn : error) :
  _execute_trade self st symbol action price now = Raise exn ->
  exn = ZeroDivisionError /\ action = "BUY"%string /\ is_zero price = true.
Proof.
  intros Hrun. unfold _execute_trade in Hrun.
  destruct (String.eqb action "BUY") eqn:Hbuy.
  - apply String.eqb_eq in Hbuy.
    destruct (lt _ _); [discriminate |].
    unfold truediv in Hrun. destruct (is_zero price) eqn:Hz; [| discriminate].
    injection Hrun as <-. auto.
  - destruct (String.eqb action "SELL" && lt zero _); discriminate.
Qed.

Lemma execute_trade_keeps_prices (self : TradingSimulator num) (st : db num)
    (symbol action : string) (price : num) (now : Z) (e : effects num) :
  _execute_trade self st symbol action price now = Ok e ->
  prices (state_after st e) = prices st.
Proof.
  intros Hrun.
  destruct (execute_trade_cases _ _ _ _ _ _ _ Hrun)
    as [[_ ->] | [(_ & _ & _ & ->) | (_ & _ & ->)]]; reflexivity.
Qed.

End Execution.

(** X8. Whatever the action, [_execute_trade] raises nothing but
    [ZeroDivisionError], and that only for a BUY at a price that compares
    equal to 0.  When it returns, the price history and the holdings of the
    other symbols are as before, the cash row is there if and only if it
    was, and the ledger is the old one, either unchanged or with one record
    added at its end that carries the symbol, action, price and time of the
    call. *)
Theorem execute_trade_frame :
  forall {num : Type} `{!Arith num}
         (self : TradingSimulator num) (st : db num) (symbol action : string)
         (price : num) (now : Z),
    match _execute_trade self st symbol action price now with
    | Raise exn =>
        exn = ZeroDivisionError /\ action = "BUY"%string /\ is_zero price = true
    | Ok e =>
        let st' := state_after st e in
        prices st' = prices st /\
        (forall other : string,
            other <> symbol -> portfolio st' !! other = portfolio st !! other) /\
        (is_Some (cash st') <-> is_Some (cash st)) /\
        (trades st' = trades st \/
         exists t : trade num,
           trades st' = trades st ++ [t] /\
           trade_symbol t = symbol /\ trade_action t = action /\
           trade_price t = price /\ trade_timestamp t = now)
    end.
Proof.
  intros num HA self st symbol action price now.
  destruct (_execute_trade self st symbol action price now) as [e | exn] eqn:Hrun.
  - destruct (execute_trade_cases _ _ _ _ _ _ _ Hrun)
      as [[_ ->] | [(-> & _ & _ & ->) | (-> & _ & ->)]].
    + repeat split; auto.
    + simpl. repeat split.
      * intros other Hne. destruct (is_zero _);
          [now rewrite lookup_delete_ne | now rewrite lookup_insert_ne].
      * destruct (cash st); [eauto | intros [? [=]]].
      * destruct (cash st); [eauto | intros [? [=]]].
      * right. eexists. repeat split.
    + simpl. repeat split.
      * intros other Hne. destruct (is_zero _);
          [now rewrite lookup_delete_ne | now rewrite lookup_insert_ne].
      * destruct (cash st); [eauto | intros [? [=]]].
      * destruct (cash st); [eauto | intros [? [=]]].
      * right. eexists. repeat split.
  - now apply execute_trade_exception in Hrun.
Qed.

(** What a SELL of a position leaves behind. *)
Lemma sell_result {num : Type} `{!Arith num} `{!Lawful num}
    (self : TradingSimulator num) (st : db num)
    (symbol : string) (price : num) (now : Z) :
  let owned := _get_portfolio_quantity st symbol in
  let new_cash := (_get_cash_balance st + owned * price)%py in
  lt zero owned = true ->
  exists e : effects num,
    _execute_trade self st symbol "SELL" price now = Ok e /\
    state_after st e =
      {| prices := prices st;
         trades := trades st ++
           [ {| trade_timestamp := now; trade_symbol := symbol;
                trade_action := "SELL"; trade_price := price;
                trade_quantity := (- owned)%py;
                trade_balance := new_cash |} ];
         portfolio := delete symbol (portfolio st);
         cash := match cash st with
                 | Some _ => Some new_cash
                 | None => None
                 end |}.
Proof.
  intros owned new_cash Hpos.
  unfold _execute_trade. simpl String.eqb. cbv iota.
  fold owned. rewrite Hpos. simpl andb. cbv iota.
  eexists. split; [reflexivity |].
  unfold state_after, _log_trade, _update_portfolio_quantity. simpl.
  now rewrite is_zero_zero.
Qed.

(** X11. A SELL never raises, and a second SELL of the same symbol right
    after it does nothing, at whatever prices: once a position is
    liquidated there is nothing left to sell. *)
Theorem sell_twice_is_sell_once :
  forall {num : Type} `{!Arith num} `{!Lawful num}
         (self : TradingSimulator num) (st : db num)
         (symbol : string) (price1 price2 : num) (now1 now2 : Z),
    exists e : effects num,
      _execute_trade self st symbol "SELL" price1 now1 = Ok e /\
      _get_portfolio_quantity (state_after st e) symbol
        = (if lt zero (_get_portfolio_quantity st symbol)
           then zero else _get_portfolio_quantity st symbol) /\
      _execute_trade self (state_after st e) symbol "SELL" price2 now2
        = Ok no_effect.
Proof.
  intros num HA L self st symbol price1 price2 now1 now2.
  destruct (lt zero (_get_portfolio_quantity st symbol)) eqn:Hpos.
  - destruct (sell_result self st symbol price1 now1) as (e & Hrun & Hafter);
      [assumption |].
    exists e. split; [assumption |]. rewrite Hafter.
    assert (Hgone : forall rest_prices rest_trades rest_cash,
               _get_portfolio_quantity
                 {| prices := rest_prices; trades := rest_trades;
                    portfolio := delete symbol (portfolio st);
                    cash := rest_cash |} symbol = zero).
    { intros. unfold _get_portfolio_quantity. simpl. now rewrite lookup_delete_eq. }
    split; [apply Hgone |].
    unfold _execute_trade. simpl String.eqb. cbv iota.
    now rewrite Hgone, zero_not_below_zero.
  - exists no_effect.
    assert (Hnoop : forall price now,
               _execute_trade self st symbol "SELL" price now = Ok no_effect).
    { intros. unfold _execute_trade. simpl String.eqb. cbv iota. now rewrite Hpos. }
    split; [apply Hnoop |]. split; [reflexivity |]. apply Hnoop.
Qed.

Lemma sell_twice_is_sell_once_witness :
  exists e : effects float,
    _execute_trade default_simulator account_holding_five "BTCUSDT" "SELL"
      120%float 9 = Ok e /\
    _get_portfolio_quantity (state_after account_holding_five e) "BTCUSDT"
      = 0%float /\
    _execute_trade default_simulator (state_after account_holding_five e)
      "BTCUSDT" "SELL" 130%float 10 = Ok no_effect.
Proof.
  exact (sell_twice_is_sell_once (num := float) default_simulator
           account_holding_five "BTCUSDT" 120%float 130%float 9 10).
Defined.

(** ** The ledger and the account *)

Section Runs.
Context {num : Type} `{!Arith num} `{!Lawful num}.

Variable self : TradingSimulator num.

(** A property that every execution at a positive price keeps holds at the
    end of every run of orders at positive prices, and the run returns. *)
Lemma execute_all_keeps (P : db num -> Prop) :
  (forall (st : db num) (o : order num) (e : effects num),
      P st -> lt zero (order_price o) = true ->
      _execute_trade self st (order_symbol o) (order_action o)
        (order_price o) (order_time o) = Ok e ->
      P (state_after st e)) ->
  forall (orders : list (order num)) (st : db num),
    P st ->
    Forall (fun o : order num => lt zero (order_price o) = true) orders ->
    exists st' : db num, execute_all self st orders = Ok st' /\ P st'.
Proof.
  intros Hstep. induction orders as [| o rest IH]; intros st HP Hprices.
  - exists st. split; [reflexivity | assumption].
  - apply Forall_cons_1 in Hprices as [Hprice Hrest].
    destruct (execute_trade_returns self st (order_symbol o) (order_action o)
                (order_price o) (order_time o)) as [e Hrun];
      [now apply positive_not_zero |].
    destruct (IH (state_after st e)) as (st' & Hall & HP');
      [now apply (Hstep st o e) | assumption |].
    exists st'. split; [| assumption]. simpl. now rewrite Hrun.
Qed.

End Runs.



(** X13. On an account with its cash row whose last ledger record, if
    there is one, shows the cash balance, every run of orders at positive
    prices returns and ends in an account of which the same is true: the
    balance written in the newest record of the ledger is the cash balance. *)
Theorem ledger_shows_cash_balance :
  forall {num : Type} `{!Arith num} `{!Lawful num}
         (self : TradingSimulator num) (st0 : db num)
         (orders : list (order num)),
    is_Some (cash st0) ->
    ledger_shows_balance st0 ->
    Forall (fun o : order num => lt zero (order_price o) = true) orders ->
    exists st : db num,
      execute_all self st0 orders = Ok st /\
      is_Some (cash st) /\
      ledger_shows_balance st.
Proof.
  intros num HA L self st0 orders Hrow Hshown Hprices.
  apply (execute_all_keeps self
           (fun st => is_Some (cash st) /\ ledger_shows_balance st));
    [| split; assumption | assumption].
  clear. intros st o e [[c Hrow] Hshown] _ Hrun.
  destruct (execute_trade_cases _ _ _ _ _ _ _ Hrun)
    as [[_ ->] | [(_ & _ & _ & ->) | (_ & _ & ->)]].
  - split; [eauto | assumption].
  - unfold ledger_shows_balance. simpl. rewrite Hrow, last_snoc.
    split; [eauto | reflexivity].
  - unfold ledger_shows_balance. simpl. rewrite Hrow, last_snoc.
    split; [eauto | reflexivity].
Qed.

Lemma ledger_shows_cash_balance_witness :
  exists st : db float,
    execute_all default_simulator fresh_account sample_orders = Ok st /\
    is_Some (cash st) /\
    ledger_shows_balance st.
Proof.
  apply (ledger_shows_cash_balance (num := float)).
  - eexists. reflexivity.
  - exact I.
  - repeat constructor.
Defined.


(** ** More on the detector and the strategy *)

Section Windows.

Context {T : Type}.
Implicit Types xs older : list T.

Lemma slice_nil (start stop : option Z) : slice (@nil T) start stop = [].
Proof. unfold slice. now rewrite drop_nil, take_nil. Qed.

(** A window counted from the end of the list does not see what comes
    before it. *)
Lemma slice_of_suffix older xs (k : Z) (stop : option Z) :
  0 < k -> k <= len xs ->
  stop = None \/ stop = Some (-1) ->
  slice (older ++ xs) (Some (- k)) stop = slice xs (Some (- k)) stop.
Proof.
  intros Hk Hlen Hstop. unfold slice, clamp.
  assert (Hneg : (- k <? 0) = true) by (apply Z.ltb_lt; lia).
  rewrite Hneg. unfold len in *. rewrite length_app.
  assert (Hdrop : drop (Z.to_nat (Z.max (Z.of_nat (length older + length xs) + - k) 0))
                    (older ++ xs)
                  = drop (Z.to_nat (Z.max (Z.of_nat (length xs) + - k) 0)) xs).
  { rewrite drop_app_ge by lia. f_equal. lia. }
  rewrite Hdrop. f_equal.
  destruct Hstop as [-> | ->]; [lia |].
  change (-1 <? 0) with true. cbv iota. lia.
Qed.

End Windows.

Section Detector.
Context {num : Type} `{!Arith num}.

Lemma truediv_int_cases (x : num) (n : Z) :
  (n = 0 /\ truediv_int x n = Raise ZeroDivisionError) \/
  (n <> 0 /\ truediv_int x n = Ok (x / of_int n)%py).
Proof.
  unfold truediv_int. destruct (n =? 0) eqn:Hn.
  - left. apply Z.eqb_eq in Hn. auto.
  - right. apply Z.eqb_neq in Hn. auto.
Qed.


Lemma crossover_signal_exception (self : TradingSimulator num) (prices : list num)
    (exn : error) :
  crossover_signal self prices = Raise exn -> exn = ZeroDivisionError.
Proof.
  unfold crossover_signal, truediv_int.
  destruct (len prices <? long_ma self + 1); [discriminate |].
  destruct (short_ma self =? 0); [now intros [= <-] |].
  destruct (long_ma self =? 0); [now intros [= <-] |]. simpl.
  repeat match goal with |- context [if ?b then _ else _] => destruct b end;
    discriminate.
Qed.

(** The recent prices are prices of stored observations of the symbol. *)
Lemma recent_prices_observed (st : db num) (symbol : string) (periods : Z) (price : num) :
  price ∈ _get_recent_prices st symbol periods ->
  exists timestamp : Z, observed st symbol (timestamp, price).
Proof.
  unfold _get_recent_prices, recent_rows.
  change (map snd) with (fmap (M := list) (@snd Z num)).
  intros Hin. apply list_elem_of_fmap in Hin as ([t p] & -> & Hin).
  rewrite elem_of_reverse in Hin.
  exists t. apply rows_of_symbol_spec.
  rewrite <- (merge_sort_Permutation later_first).
  unfold sql_limit in Hin. destruct (periods <? 0); [assumption |].
  apply elem_of_take in Hin as (i & Hi & _).
  apply list_elem_of_lookup. eauto.
Qed.

Context `{!Lawful num}.

(** On no prices at all the detector cannot see a crossover: the four
    averages are quotients of 0, and none of them is below another. *)
Lemma crossover_signal_of_nil (self : TradingSimulator num) (decision : signal) :
  crossover_signal self [] = Ok decision -> decision = HOLD.
Proof.
  unfold crossover_signal.
  destruct (len [] <? long_ma self + 1); [now intros [= <-] |].
  rewrite !slice_nil.
  destruct (truediv_int_cases (sum []) (short_ma self)) as [[_ ->] | [_ ->]];
    [discriminate |].
  destruct (truediv_int_cases (sum []) (long_ma self)) as [[_ ->] | [_ ->]];
    [discriminate |].
  unfold sum. simpl.
  rewrite !zero_quotients, !andb_false_r. now intros [= <-].
Qed.

(** When the detector sees a crossover there is a newest price, and it is
    the price of a stored observation. *)
Lemma newest_price_on_crossover (self : TradingSimulator num) (st : db num)
    (symbol : string) (periods : Z) (decision : signal) :
  crossover_signal self (_get_recent_prices st symbol periods) = Ok decision ->
  decision <> HOLD ->
  exists (timestamp : Z) (price : num),
    last_item (_get_recent_prices st symbol periods) = Ok price /\
    observed st symbol (timestamp, price).
Proof.
  intros Hsig Hcross. unfold last_item.
  destruct (last (_get_recent_prices st symbol periods)) as [price |] eqn:Hlast.
  - apply last_Some_elem_of, recent_prices_observed in Hlast as [t Hobs]. eauto.
  - apply last_None in Hlast. rewrite Hlast in Hsig.
    apply crossover_signal_of_nil in Hsig. contradiction.
Qed.

End Detector.

(** X16. The detector raises exactly when there is enough history and one
    of the two windows is 0, and then it is [ZeroDivisionError]; with too
    little history it returns HOLD before it divides, whatever the
    windows. *)
Theorem crossover_signal_raises_on_zero_window :
  forall {num : Type} `{!Arith num} (self : TradingSimulator num) (prices : list num),
    (crossover_signal self prices = Raise ZeroDivisionError <->
     long_ma self + 1 <= len prices /\ (short_ma self = 0 \/ long_ma self = 0)) /\
    crossover_signal self prices <> Raise IndexError.
Proof.
  intros num HA self prices. unfold crossover_signal.
  destruct (len prices <? long_ma self + 1) eqn:Hlen.
  - apply Z.ltb_lt in Hlen. split; [| discriminate].
    split; [discriminate | lia].
  - apply Z.ltb_ge in Hlen.
    destruct (truediv_int_cases
                (sum (slice prices (Some (- (short_ma self + 1))) (Some (-1))))
                (short_ma self)) as [[Hs ->] | [Hs ->]]; simpl.
    { split; [| discriminate]. split; auto. }
    destruct (truediv_int_cases
                (sum (slice prices (Some (- (long_ma self + 1))) (Some (-1))))
                (long_ma self)) as [[Hl ->] | [Hl ->]]; simpl.
    { split; [| discriminate]. split; auto. }
    unfold truediv_int.
    assert (Hs' : (short_ma self =? 0) = false) by now apply Z.eqb_neq.
    assert (Hl' : (long_ma self =? 0) = false) by now apply Z.eqb_neq.
    rewrite Hs', Hl'. simpl.
    repeat match goal with |- context [if ?b then _ else _] => destruct b end;
      (split; [split; [discriminate | lia] | discriminate]).
Qed.

(** X17. With windows [0 < short_ma <= long_ma], the decision on a price
    history is the decision on its last [long_ma + 1] prices: older prices
    in front of them change nothing, so reading only that many prices from
    the store loses nothing. *)
Theorem crossover_signal_reads_the_tail :
  forall {num : Type} `{!Arith num}
         (self : TradingSimulator num) (older window : list num),
    0 < short_ma self ->
    short_ma self <= long_ma self ->
    long_ma self + 1 <= len window ->
    crossover_signal self (older ++ window) = crossover_signal self window.
Proof.
  intros num HA self older window Hshort Hle Hlen.
  unfold crossover_signal.
  assert (Hlong : (len window <? long_ma self + 1) = false)
    by (apply Z.ltb_ge; lia).
  assert (Hlong' : (len (older ++ window) <? long_ma self + 1) = false).
  { apply Z.ltb_ge. unfold len in *. rewrite length_app. lia. }
  rewrite Hlong, Hlong'.
  rewrite !(slice_of_suffix older window) by (auto; lia).
  reflexivity.
Qed.

Lemma crossover_signal_reads_the_tail_witness :
  crossover_signal default_simulator
    ([1; 2; 3]%float ++ dip_and_recovery (num := float))
    = crossover_signal default_simulator dip_and_recovery.
Proof.
  apply (crossover_signal_reads_the_tail (num := float)).
  - reflexivity.
  - discriminate.
  - discriminate.
Defined.

(** X18. [_evaluate_strategy] never raises [IndexError]: the newest price
    [prices[-1]] is read only after a crossover, and the detector sees no
    crossover in an empty list of prices.  The only exception it can raise
    is [ZeroDivisionError]. *)
Theorem evaluate_strategy_never_index_error :
  forall {num : Type} `{!Arith num} `{!Lawful num}
         (self : TradingSimulator num) (st : db num)
         (symbol : string) (now : Z),
    _evaluate_strategy self st symbol now <> Raise IndexError.
Proof.
  intros num HA L self st symbol now Hraise.
  unfold _evaluate_strategy in Hraise.
  destruct (crossover_signal self
              (_get_recent_prices st symbol (long_ma self + 1)))
    as [decision | exn] eqn:Hsig; simpl in Hraise.
  - destruct decision; try discriminate.
    + destruct (newest_price_on_crossover self st symbol _ BUY Hsig)
        as (t & p & Hlast & _); [discriminate |].
      rewrite Hlast in Hraise. simpl in Hraise.
      apply execute_trade_exception in Hraise as [? _]. discriminate.
    + destruct (newest_price_on_crossover self st symbol _ SELL Hsig)
        as (t & p & Hlast & _); [discriminate |].
      rewrite Hlast in Hraise. simpl in Hraise.
      apply execute_trade_exception in Hraise as [? _]. discriminate.
  - apply crossover_signal_exception in Hsig. congruence.
Qed.

Lemma evaluate_strategy_never_index_error_witness :
  _evaluate_strategy zero_window_simulator sample_history "BTCUSDT" 5
    <> Raise IndexError.
Proof.
  apply (evaluate_strategy_never_index_error (num := float)).
Defined.









(** X20. When a price was stored at a timestamp that is not older than any
    observation of the symbol, as the job does before it evaluates the
    strategy, a BUY or SELL that the strategy decides on is executed at
    exactly that price. *)
Theorem strategy_trades_at_stored_price :
  forall {num : Type} `{!Arith num} `{!Lawful num}
         (self : TradingSimulator num) (st : db num)
         (timestamp : Z) (symbol : string) (price : num) (now : Z),
    (forall row : Z * num, observed st symbol row -> row.1 <= timestamp) ->
    let st' := _store_price st timestamp symbol price in
    _evaluate_strategy self st' symbol now =
      (decision ← crossover_signal self
                    (_get_recent_prices st' symbol (long_ma self + 1));
       match decision with
       | BUY => _execute_trade self st' symbol "BUY" price now
       | SELL => _execute_trade self st' symbol "SELL" price now
       | HOLD => Ok no_effect
       end).
Proof.
  intros num HA L self st timestamp symbol price now Hlatest st'.
  unfold _evaluate_strategy.
  destruct (crossover_signal self
              (_get_recent_prices st' symbol (long_ma self + 1)))
    as [decision | exn] eqn:Hsig; [| reflexivity].
  assert (Hlast : decision <> HOLD ->
                  last_item (_get_recent_prices st' symbol (long_ma self + 1))
                  = Ok price).
  { intros Hcross. unfold last_item.
    destruct (Z.eq_dec (long_ma self + 1) 0) as [Hzero | Hcount].
    - rewrite Hzero in Hsig. apply crossover_signal_of_nil in Hsig. contradiction.
    - unfold st'. now rewrite newest_after_store. }
  simpl. destruct decision; [| | reflexivity];
    rewrite Hlast by discriminate; reflexivity.
Qed.

Lemma dip_history_latest (row : Z * float) :
  observed dip_history "BTCUSDT" row -> row.1 <= 21.
Proof.
  apply (store_series_latest (num := float)); [vm_compute; discriminate |].
  intros r Hobs. unfold observed in Hobs. simpl in Hobs.
  rewrite lookup_empty in Hobs. discriminate.
Qed.

(** On the history of the worked crossover the decision is BUY, and the
    BUY is executed at the price just stored. *)
Lemma strategy_trades_at_stored_price_witness :
  crossover_signal default_simulator
    (_get_recent_prices crossing_history "BTCUSDT" 21) = Ok BUY /\
  _evaluate_strategy default_simulator crossing_history "BTCUSDT" 22 =
    (decision ← crossover_signal default_simulator
                  (_get_recent_prices crossing_history "BTCUSDT"
                     (long_ma default_simulator + 1));
     match decision with
     | BUY => _execute_trade default_simulator crossing_history
                "BTCUSDT" "BUY" 120%float 22
     | SELL => _execute_trade default_simulator crossing_history
                 "BTCUSDT" "SELL" 120%float 22
     | HOLD => Ok no_effect
     end).
Proof.
  split; [vm_compute; reflexivity |].
  exact (strategy_trades_at_stored_price (num := float) default_simulator
           dip_history 21 "BTCUSDT" 120%float 22 dip_history_latest).
Defined.

(** What that evaluation does: 500 spent on 4.166666666666667 units. *)
Example crossing_history_buys :
  (e ← _evaluate_strategy default_simulator crossing_history "BTCUSDT" 22;
   Ok (printed e,
       cash (state_after crossing_history e),
       portfolio (state_after crossing_history e) !! "BTCUSDT"%string))
    = Ok ([Bought 22 4.166666666666667%float "BTCUSDT" 120%float 9500%float],
          Some 9500%float,
          Some 4.166666666666667%float).
Proof. vm_compute. reflexivity. Qed.


(** ** The polling job *)

Section Job.
Context {num : Type} `{!Arith num}.

Lemma evaluate_strategy_keeps_prices (self : TradingSimulator num) (st : db num)
    (symbol : string) (now : Z) (e : effects num) :
  _evaluate_strategy self st symbol now = Ok e ->
  prices (state_after st e) = prices st.
Proof.
  unfold _evaluate_strategy. intros Hrun.
  destruct (crossover_signal self _) as [decision | exn]; [| discriminate].
  simpl in Hrun.
  destruct decision;
    try (destruct (last_item _) as [p | exn]; [| discriminate]; simpl in Hrun;
         now apply (execute_trade_keeps_prices _ _ _ _ _ _ _ Hrun)).
  now injection Hrun as <-.
Qed.

(** Quotes written under one timestamp leave the other timestamps alone. *)
Lemma record_quotes_other_timestamp (timestamp other : Z) (symbol : string)
    (handled : list (poll num)) :
  forall table : gmap (Z * string) num,
    other <> timestamp ->
    record_quotes timestamp handled table !! (other, symbol)
      = table !! (other, symbol).
Proof.
  unfold record_quotes.
  induction handled as [| p rest IH]; intros table Hne; [reflexivity |].
  simpl. rewrite IH by assumption.
  destruct (fetched p); [| reflexivity].
  apply lookup_insert_ne. congruence.
Qed.

Lemma record_quotes_snoc (timestamp : Z) (handled : list (poll num)) (p : poll num)
    (table : gmap (Z * string) num) :
  record_quotes timestamp (handled ++ [p]) table
    = match fetched p with
      | Some price =>
          <[(timestamp, poll_symbol p) := price]> (record_quotes timestamp handled table)
      | None => record_quotes timestamp handled table
      end.
Proof. unfold record_quotes. now rewrite fold_left_app. Qed.

(** A job on a list of polls goes on, after as many of them as it handles
    without an exception, as a job on the rest from the database it has
    reached. *)
Lemma job_app (self : TradingSimulator num) (timestamp : Z) (before : list (poll num)) :
  forall (st : db num) (rest : list (poll num)),
    let done := _job self st timestamp before in
    job_raised done = None ->
    let later := _job self (job_db done) timestamp rest in
    _job self st timestamp (before ++ rest)
      = {| job_db := job_db later;
           job_printed := job_printed done ++ job_printed later;
           job_raised := job_raised later |}.
Proof.
  induction before as [| q before IH]; intros st rest; cbv zeta.
  - intros _. simpl. now destruct (_job self st timestamp rest).
  - simpl. destruct (fetched q) as [price |]; [| apply IH].
    destruct (_evaluate_strategy self
                (_store_price st timestamp (poll_symbol q) price)
                (poll_symbol q) (trade_clock q)) as [e | exn]; [| discriminate].
    simpl. intros Hnone. rewrite (IH _ rest Hnone). simpl.
    now rewrite app_assoc.
Qed.

(** What the job that raises has done: it went through the polls before
    some poll without an exception, stored the price of that poll, and the
    evaluation for it raised. *)
Lemma job_raised_at (self : TradingSimulator num) (timestamp : Z)
    (polls : list (poll num)) :
  forall (st : db num) (exn : error),
    job_raised (_job self st timestamp polls) = Some exn ->
    exists (before : list (poll num)) (p : poll num) (after : list (poll num))
           (price : num),
      polls = before ++ p :: after /\
      fetched p = Some price /\
      job_raised (_job self st timestamp before) = None /\
      _evaluate_strategy self
        (_store_price (job_db (_job self st timestamp before)) timestamp
           (poll_symbol p) price)
        (poll_symbol p) (trade_clock p) = Raise exn /\
      job_db (_job self st timestamp polls)
        = _store_price (job_db (_job self st timestamp before)) timestamp
            (poll_symbol p) price.
Proof.
  induction polls as [| q rest IH]; intros st exn; [discriminate |].
  simpl. destruct (fetched q) as [price |] eqn:Hquote.
  - destruct (_evaluate_strategy self
                (_store_price st timestamp (poll_symbol q) price)
                (poll_symbol q) (trade_clock q)) as [e | exn'] eqn:Hrun.
    + simpl. intros Hraised.
      destruct (IH _ exn Hraised)
        as (before & p & after & price' & -> & Hp & Hnone & Hraise & Hdb).
      exists (q :: before), p, after, price'. simpl.
      rewrite Hquote, Hrun. simpl. repeat split; assumption.
    + simpl. intros [= ->].
      exists [], q, rest, price. simpl. repeat split; assumption.
  - intros Hraised.
    destruct (IH _ exn Hraised)
      as (before & p & after & price' & -> & Hp & Hnone & Hraise & Hdb).
    exists (q :: before), p, after, price'. simpl.
    rewrite Hquote. repeat split; assumption.
Qed.

(** The price table after a job that raised nothing. *)
Lemma job_prices (self : TradingSimulator num) (timestamp : Z)
    (polls : list (poll num)) :
  forall st : db num,
    job_raised (_job self st timestamp polls) = None ->
    prices (job_db (_job self st timestamp polls))
      = record_quotes timestamp polls (prices st).
Proof.
  induction polls as [| q rest IH]; intros st; [reflexivity |].
  simpl. destruct (fetched q) as [price |] eqn:Hquote.
  - destruct (_evaluate_strategy self
                (_store_price st timestamp (poll_symbol q) price)
                (poll_symbol q) (trade_clock q)) as [e | exn] eqn:Hrun;
      [| discriminate].
    simpl. intros Hnone. rewrite (IH _ Hnone).
    rewrite (evaluate_strategy_keeps_prices _ _ _ _ _ Hrun).
    reflexivity.
  - intros Hnone. now rewrite (IH _ Hnone).
Qed.

End Job.

(** X21. A job in which every fetch fails does nothing at all: the
    database is left as it was, nothing is printed by a trade and no
    exception is raised. *)
Theorem job_without_quotes_does_nothing :
  forall {num : Type} `{!Arith num} (self : TradingSimulator num) (st : db num)
         (timestamp : Z) (polls : list (poll num)),
    Forall (fun p : poll num => fetched p = None) polls ->
    _job self st timestamp polls
      = {| job_db := st; job_printed := []; job_raised := None |}.
Proof.
  intros num HA self st timestamp polls Hfailed.
  induction Hfailed as [| p rest Hnone _ IH]; [reflexivity |].
  simpl. now rewrite Hnone.
Qed.

Lemma job_without_quotes_does_nothing_witness :
  _job default_simulator crossing_history 22
    [ {| poll_symbol := "BTCUSDT"; fetched := None; trade_clock := 23 |};
      {| poll_symbol := "ETHUSDT"; fetched := None; trade_clock := 24 |} ]
    = {| job_db := crossing_history; job_printed := []; job_raised := None |}.
Proof.
  apply (job_without_quotes_does_nothing (num := float)). repeat constructor.
Defined.

(** X22. The price table after a job holds exactly the fetched prices of
    the polls the job got through, written under the timestamp of the job
    on top of the old table.  When no exception was raised these are all the
    polls.  When the job raised, the polls split into those before some
    poll, which the job went through without an exception, that poll, whose
    price was fetched and stored and whose evaluation raised the exception,
    and the polls after it: the prices written are those of the polls up to
    and including that one, and none of a later poll.  Observations under
    other timestamps are never touched. *)
Theorem job_records_fetched_prices :
  forall {num : Type} `{!Arith num} (self : TradingSimulator num)
         (polls : list (poll num)) (st : db num) (timestamp : Z),
    let out := _job self st timestamp polls in
    (forall (other : Z) (symbol : string),
        other <> timestamp ->
        prices (job_db out) !! (other, symbol) = prices st !! (other, symbol)) /\
    match job_raised out with
    | None => prices (job_db out) = record_quotes timestamp polls (prices st)
    | Some exn =>
        exists (before : list (poll num)) (p : poll num) (after : list (poll num))
               (price : num),
          polls = before ++ p :: after /\
          fetched p = Some price /\
          job_raised (_job self st timestamp before) = None /\
          _evaluate_strategy self
            (_store_price (job_db (_job self st timestamp before)) timestamp
               (poll_symbol p) price)
            (poll_symbol p) (trade_clock p) = Raise exn /\
          prices (job_db out)
            = record_quotes timestamp (before ++ [p]) (prices st) /\
          prices (job_db out) !! (timestamp, poll_symbol p) = Some price
    end.
Proof.
  intros num HA self polls st timestamp out.
  assert (Hcases :
    match job_raised out with
    | None => prices (job_db out) = record_quotes timestamp polls (prices st)
    | Some exn =>
        exists (before : list (poll num)) (p : poll num) (after : list (poll num))
               (price : num),
          polls = before ++ p :: after /\
          fetched p = Some price /\
          job_raised (_job self st timestamp before) = None /\
          _evaluate_strategy self
            (_store_price (job_db (_job self st timestamp before)) timestamp
               (poll_symbol p) price)
            (poll_symbol p) (trade_clock p) = Raise exn /\
          prices (job_db out)
            = record_quotes timestamp (before ++ [p]) (prices st) /\
          prices (job_db out) !! (timestamp, poll_symbol p) = Some price
    end).
  { unfold out. destruct (job_raised (_job self st timestamp polls)) as [exn |] eqn:Hend.
    - destruct (job_raised_at self timestamp polls st exn Hend)
        as (before & p & after & price & Hsplit & Hp & Hnone & Hraise & Hdb).
      exists before, p, after, price.
      repeat (split; [assumption |]).
      rewrite Hdb. simpl. split; [| apply lookup_insert_eq].
      rewrite record_quotes_snoc, Hp. now rewrite (job_prices _ _ _ _ Hnone).
    - now apply job_prices. }
  split; [| exact Hcases].
  intros other symbol Hne.
  destruct (job_raised out) as [exn |].
  - destruct Hcases as (before & p & after & price & _ & _ & _ & _ & -> & _).
    now apply record_quotes_other_timestamp.
  - rewrite Hcases. now apply record_quotes_other_timestamp.
Qed.

(** X26. When the strategy raises for a symbol, the job ends there with
    that exception, whatever it did for the symbols before: the price of
    that symbol has been stored on top of what the polls before it left,
    the lines their trades printed are kept, and the polls after it are not
    handled at all, so their prices are not stored. *)
Theorem job_stops_at_exception :
  forall {num : Type} `{!Arith num} (self : TradingSimulator num) (st : db num)
         (timestamp : Z) (before : list (poll num)) (p : poll num)
         (later : list (poll num)) (price : num) (exn : error),
    let done := _job self st timestamp before in
    job_raised done = None ->
    fetched p = Some price ->
    _evaluate_strategy self
      (_store_price (job_db done) timestamp (poll_symbol p) price)
      (poll_symbol p) (trade_clock p) = Raise exn ->
    _job self st timestamp (before ++ p :: later)
      = {| job_db := _store_price (job_db done) timestamp (poll_symbol p) price;
           job_printed := job_printed done;
           job_raised := Some exn |}.
Proof.
  intros num HA self st timestamp before p later price exn done Hnone Hquote Hraise.
  rewrite (job_app self timestamp before st (p :: later) Hnone).
  fold done. simpl. rewrite Hquote, Hraise. simpl.
  now rewrite app_nil_r.
Qed.

(** With a short window of 0 the job handles the symbol with two stored
    prices without an exception and stops at the symbol with three: the
    prices of the first two polls are stored, the price of the last is
    not. *)
Lemma job_stops_at_exception_witness :
  let before := [ {| poll_symbol := "ETHUSDT"; fetched := Some 98%float;
                     trade_clock := 5 |} ] in
  let p := {| poll_symbol := "BTCUSDT"; fetched := Some 40%float;
              trade_clock := 6 |} in
  let later := [ {| poll_symbol := "XRPUSDT"; fetched := Some 50%float;
                    trade_clock := 7 |} ] in
  let done := _job zero_window_simulator sample_history 4 before in
  let out := _job zero_window_simulator sample_history 4 (before ++ p :: later) in
  out = {| job_db := _store_price (job_db done) 4 (poll_symbol p) 40%float;
           job_printed := job_printed done;
           job_raised := Some ZeroDivisionError |} /\
  (prices (job_db out) !! (4, "ETHUSDT"%string),
   prices (job_db out) !! (4, "BTCUSDT"%string),
   prices (job_db out) !! (4, "XRPUSDT"%string))
    = (Some 98%float, Some 40%float, None).
Proof.
  intros before p later done out. split; [| vm_compute; reflexivity].
  apply (job_stops_at_exception (num := float) zero_window_simulator sample_history 4
           before p later 40%float ZeroDivisionError);
    vm_compute; reflexivity.
Defined.

(** ** The main loop *)

(** X25. The time that [run] passes to [time.sleep] is never negative and
    never a NaN, whatever the job took: it is the time left of the interval
    when that is greater than 0, and 0 otherwise.  The time left is the
    difference as the arithmetic computes it, so in binary64 it is rounded. *)
Theorem sleep_is_never_negative :
  forall {num : Type} `{!Arith num} `{!Lawful num} (fetch_interval_minutes : Z)
         (elapsed : num),
    let remaining := (of_int (fetch_interval_minutes * 60) - elapsed)%py in
    let wait := sleep_seconds fetch_interval_minutes elapsed in
    le zero wait = true /\
    lt wait zero = false /\
    (lt zero remaining = true -> wait = remaining) /\
    (lt zero remaining = false -> wait = zero).
Proof.
  intros num HA L fetch_interval_minutes elapsed remaining wait.
  assert (Hle : le zero wait = true).
  { unfold wait, sleep_seconds. fold remaining.
    destruct (lt zero remaining) eqn:Hpos; [now apply lt_le | apply zero_le_zero]. }
  split; [exact Hle |]. split; [now apply le_not_gt |].
  unfold wait, sleep_seconds. fold remaining.
  split; intros ->; reflexivity.
Qed.

(** After a job of 0.1 seconds in an interval of 5 minutes the wait is the
    double 299.9; a job that overran the interval, or whose duration is a
    NaN, is followed by no wait. *)
Lemma sleep_is_never_negative_witness :
  (le zero (sleep_seconds 5 0.1%float) = true /\
   lt (sleep_seconds 5 0.1%float) zero = false /\
   (lt zero (of_int (5 * 60) - 0.1%float)%py = true ->
    sleep_seconds 5 0.1%float = (of_int (5 * 60) - 0.1%float)%py) /\
   (lt zero (of_int (5 * 60) - 0.1%float)%py = false ->
    sleep_seconds 5 0.1%float = zero)) /\
  sleep_seconds 5 0.1%float = 299.9%float /\
  sleep_seconds 5 400%float = 0%float /\
  sleep_seconds 5 nan = 0%float.
Proof.
  split; [exact (sleep_is_never_negative (num := float) 5 0.1%float) |].
  repeat split.
Defined.

(** The wait is rounded: the doubles 0.1 and 299.9 add up to less than 300
    as rationals, although their binary64 sum is 300. *)
Example wait_is_rounded :
  Prim2SF 0.1 = S754_finite false 7205759403792794 (-56) /\
  Prim2SF 299.9 = S754_finite false 5275896594720358 (-44) /\
  7205759403792794 + 5275896594720358 * 2 ^ 12 < 300 * 2 ^ 56 /\
  (0.1 + 299.9 = 300)%float.
Proof. repeat split. Qed.

Section JobSafety.

Variable self : TradingSimulator Q.

Hypothesis short_nonzero : short_ma self <> 0.
Hypothesis long_nonzero : long_ma self <> 0.
Hypothesis fraction_at_most_one : (position_size_fraction self <= 1)%Q.




End JobSafety.



Lemma falling_polls_positive : quotes_positive (falling_polls (num := Q)).
Proof. repeat constructor; simpl; intros price [= <-]; reflexivity. Qed.




(** The same two turns in binary64: 500 are spent on 4.166666666666667
    units at 120, which are sold at 60 for 250.00000000000003, and the
    waits are 298 seconds and none. *)
Example sample_ticks_in_binary64 :
  let out := run default_simulator 5 dip_history sample_ticks in
  job_raised out.1 = None /\
  job_printed out.1
    = [ Bought 22 4.166666666666667%float "BTCUSDT" 120%float 9500%float;
        Sold 25 4.166666666666667%float "BTCUSDT" 60%float 9750%float ] /\
  cash (job_db out.1) = Some 9750%float /\
  portfolio (job_db out.1) = ∅ /\
  out.2 = [298%float; 0%float].
Proof. vm_compute. repeat split. Qed.
